(** * Shop ranking of the bag endpoint (src/app/api/endpoints/bag.py)

    A shallow embedding of [calculate_shop_totals_for_products] and of the
    result assembly of [calculate_best_shop], with the properties the
    specification states about them.

    Modelling choices.
    - Python [float] is IEEE binary64: Rocq's primitive [float], with
      [PrimFloat.add], [PrimFloat.ltb] and [PrimFloat.eqb] for [+], [<], [==];
      [float(n)] and [round(x, 3)] are computed on the exact values.
    - Values read from the catalogue documents are dynamically typed: [pyval]
      is the JSON fragment of what a document can hold.  A [dict] is an
      association list read by first match.
    - A Python exception is the [Raise] branch of [result].
    - [list.sort] is a stable sort by [<] on the keys, here an insertion
      sort; the two agree when [<] orders the keys, that is when no total is
      NaN.
    - Three library behaviours are parameters of the development, the fields
      of the class [Library]: the parsing of a string by [float()], and
      pydantic's validation of a field declared [bool] and of one declared
      [Optional[str]]. *)

From Stdlib Require Import List String Ascii ZArith Bool Arith Lia Floats.
From Stdlib Require Import Permutation Sorted.
Import ListNotations.

Set Warnings "-register-all".
Local Open Scope string_scope.
Local Open Scope list_scope.
Local Abbreviation length := Datatypes.length.

(** ** Values and exceptions *)

Inductive pyval : Type :=
| PNone
| PBool (b : bool)
| PInt (n : Z)
| PFloat (x : float)
| PStr (s : string)
| PList (l : list pyval)
| PDict (d : list (string * pyval)).

Inductive exn : Type :=
| AttributeError
| TypeError
| ValueError
| OverflowError
| KeyError
| IndexError
| ValidationError.

Inductive result (A : Type) : Type :=
| Ok (a : A)
| Raise (e : exn).

Arguments Ok {A} a.
Arguments Raise {A} e.

Definition bind {A B : Type} (r : result A) (k : A -> result B) : result B :=
  match r with
  | Ok a => k a
  | Raise e => Raise e
  end.

Notation "x <- r ;; k" := (bind r (fun x => k))
  (at level 61, r at next level, right associativity).

(** [for x in l: acc = f(acc, x)], stopping at the first exception. *)
Fixpoint for_each {A S : Type} (f : S -> A -> result S) (l : list A) (s : S)
  : result S :=
  match l with
  | [] => Ok s
  | x :: l' => s' <- f s x ;; for_each f l' s'
  end.

(** ** Built-ins *)

(** [bool(v)]: the truth value of [v] in [if v], [a or b]. *)
Definition truthy (v : pyval) : bool :=
  match v with
  | PNone => false
  | PBool b => b
  | PInt n => negb (n =? 0)%Z
  | PFloat x => negb (x =? 0)%float
  | PStr s => negb (s =? "")%string
  | PList l => match l with [] => false | _ => true end
  | PDict d => match d with [] => false | _ => true end
  end.

Definition is_None (v : pyval) : bool :=
  match v with
  | PNone => true
  | _ => false
  end.

Fixpoint assoc (k : string) (d : list (string * pyval)) : option pyval :=
  match d with
  | [] => None
  | (k', v) :: d' => if (k' =? k)%string then Some v else assoc k d'
  end.

(** [v.get(k, default)]; only a [dict] has the method. *)
Definition py_get (v : pyval) (k : string) (default : pyval) : result pyval :=
  match v with
  | PDict d =>
      match assoc k d with
      | Some x => Ok x
      | None => Ok default
      end
  | _ => Raise AttributeError
  end.

(** [s.replace(a, b)] for one-character [a] and [b]. *)
Fixpoint replace (a b : ascii) (s : string) : string :=
  match s with
  | EmptyString => EmptyString
  | String c s' => String (if (c =? a)%char then b else c) (replace a b s')
  end.

(** [v[0]] for a [v] that passed [if v]. *)
Definition py_first (v : pyval) : result pyval :=
  match v with
  | PList (x :: _) => Ok x
  | PList [] => Raise IndexError
  | PStr (String c _) => Ok (PStr (String c EmptyString))
  | PStr EmptyString => Raise IndexError
  | PDict _ => Raise KeyError
  | _ => Raise TypeError
  end.

(** *** Floats *)

(** [float(n)] for an [int]: the nearest double, ties to even;
    [OverflowError] when it is out of range. *)
Definition float_of_int (n : Z) : result float :=
  let x := SF2Prim (binary_normalize prec emax n 0 false) in
  if is_infinity x then Raise OverflowError else Ok x.

(** The integer nearest to [m * 1000 * 2^e], ties to even. *)
Definition scaled_thousandths (m : positive) (e : Z) : Z :=
  match e with
  | Zneg p =>
      let d := Z.pow_pos 2 p in
      let (q, r) := Z.div_eucl (Zpos m * 1000) d in
      match (2 * r ?= d)%Z with
      | Lt => q
      | Eq => if Z.even q then q else (q + 1)%Z
      | Gt => (q + 1)%Z
      end
  | _ => (Zpos m * 1000 * 2 ^ e)%Z
  end.

(** The double nearest to [n / d], ties to even, with sign [sign]. *)
Definition ratio_to_float (sign : bool) (n d : positive) : float :=
  let '(mz, ez, lz) := SFdiv_core_binary prec emax (Zpos n) 0 (Zpos d) 0 in
  SF2Prim (binary_round_aux prec emax sign mz ez lz).

(** The double nearest to [n / 1000], with sign [s]. *)
Definition thousandths_to_float (s : bool) (n : Z) : float :=
  match n with
  | Zpos p => ratio_to_float s p 1000
  | _ => SF2Prim (S754_zero s)
  end.

(** [round(x, 3)]: the decimal with three fractional digits nearest to the
    exact value of [x] (ties to even), read back as a double; zeros,
    infinities and NaN are returned unchanged. *)
Definition round3 (x : float) : float :=
  match Prim2SF x with
  | S754_finite s m e => thousandths_to_float s (scaled_thousandths m e)
  | _ => x
  end.

(** ** Records of the endpoint *)

Record ProductInShop : Type := {
  sku : string;
  title : string;
  image : option string;
  price : option float;
  available : bool
}.

Record ShopTotal : Type := {
  shop : string;
  total : float;
  products : list ProductInShop;
  available_count : nat;
  missing_count : nat
}.

(** A product as [calculate_best_shop] builds it: the keys ["sku"] and
    ["title"] hold strings; ["shops"] holds whatever the document had, and
    [None] here stands for a dict without that key. *)
Record Product : Type := {
  prod_sku : string;
  prod_title : string;
  prod_shops : option pyval
}.

Record CategoryResult : Type := {
  category : string;
  category_label : string;
  best_shop : option string;
  best_total : option float;
  shop_totals : list ShopTotal;
  result_products : list (string * string)
}.

Record BestShopResponse : Type := {
  para_result : option CategoryResult;
  retail_result : option CategoryResult
}.

(** The four local variables of the loop over one shop. *)
Record ShopAcc : Type := {
  acc_total : float;
  acc_products_in_shop : list ProductInShop;
  acc_available_count : nat;
  acc_missing_count : nat
}.

Definition PARA_SHOPS : list string := ["parashop"; "pharma-shop"; "parafendri"].
Definition RETAIL_SHOPS : list string := ["mytek"; "tunisianet"; "spacenet"].

(** ** The sort of line 118 *)

(** [key(a) < key(b)] for the key [(missing_count, total)]: tuples compare
    by their first components that are not [==], and equal tuples are not
    [<]. *)
Definition key_lt (a b : ShopTotal) : bool :=
  if (missing_count a =? missing_count b)%nat then
    if (total a =? total b)%float then false
    else (total a <? total b)%float
  else (missing_count a <? missing_count b)%nat.

(** [l.sort(key=...)] is a stable sort that compares keys with [<] only;
    it is modelled by insertion from left to right, where [x] goes after
    every entry it is not smaller than. *)
Fixpoint insert_by {A : Type} (lt : A -> A -> bool) (x : A) (l : list A) : list A :=
  match l with
  | [] => [x]
  | y :: l' => if lt x y then x :: y :: l' else y :: insert_by lt x l'
  end.

Definition sort_by {A : Type} (lt : A -> A -> bool) (l : list A) : list A :=
  fold_left (fun sorted x => insert_by lt x sorted) l [].

(** [a] is not after [b] in the order [lt]. *)
Definition not_after {A : Type} (lt : A -> A -> bool) (a b : A) : Prop :=
  lt b a = false.

(** Neither is smaller. *)
Definition tied {A : Type} (lt : A -> A -> bool) (a b : A) : bool :=
  negb (lt a b) && negb (lt b a).

Definition sort_by_key (l : list ShopTotal) : list ShopTotal :=
  sort_by key_lt l.

(** Equal on both components of the key. *)
Definition same_key (a b : ShopTotal) : bool :=
  (missing_count a =? missing_count b)%nat && (total a =? total b)%float.

(** [a] misses no more products than [b]. *)
Definition missing_le (a b : ShopTotal) : Prop :=
  missing_count a <= missing_count b.

(** The total of the entry is a number. *)
Definition comparable (st : ShopTotal) : Prop := is_nan (total st) = false.

(** Lines 121-128: the first entry that misses nothing. *)
Fixpoint first_complete (l : list ShopTotal) : option string * option float :=
  match l with
  | [] => (None, None)
  | st :: l' =>
      if (missing_count st =? 0)%nat && (0 <? available_count st)%nat
      then (Some (shop st), Some (total st))
      else first_complete l'
  end.

(** The selection of lines 121-133, on the list it is given. *)
Definition select_best (sts : list ShopTotal) : option string * option float :=
  match find (fun st => (missing_count st =? 0)%nat) sts with
  | Some st => (Some (shop st), Some (total st))
  | None =>
      match sts with
      | st :: _ => (Some (shop st), Some (total st))
      | [] => (None, None)
      end
  end.

(** ** Library behaviour taken as given *)

Class Library : Type := {
  (** [float(s)] for a string: [None] is [ValueError]. *)
  float_of_str : string -> option float;
  (** pydantic's validation of a field declared [bool]: [None] is
      [ValidationError]. *)
  as_bool : pyval -> option bool;
  (** pydantic's validation of a field declared [Optional[str]]. *)
  as_optional_str : pyval -> option (option string)
}.

(** What both pydantic modes do with values of the declared type. *)
Class Lawful (L : Library) : Prop := {
  as_bool_PBool : forall b, as_bool (PBool b) = Some b;
  as_optional_str_PNone : as_optional_str PNone = Some None;
  as_optional_str_PStr : forall s, as_optional_str (PStr s) = Some (Some s)
}.

Section Ranking.

Context {L : Library}.

(** [float(v)]. *)
Definition py_float (v : pyval) : result float :=
  match v with
  | PBool b => Ok (if b then 1 else 0)%float
  | PInt n => float_of_int n
  | PFloat x => Ok x
  | PStr s =>
      match float_of_str s with
      | Some x => Ok x
      | None => Raise ValueError
      end
  | PNone | PList _ | PDict _ => Raise TypeError
  end.

(** [ProductInShop(sku=.., title=.., image=.., price=.., available=..)]. *)
Definition new_ProductInShop (sku0 title0 : string) (image0 : pyval)
    (price0 : float) (available0 : pyval) : result ProductInShop :=
  match as_optional_str image0, as_bool available0 with
  | Some i, Some a =>
      Ok {| sku := sku0; title := title0; image := i;
            price := Some price0; available := a |}
  | _, _ => Raise ValidationError
  end.

(** The entry of a product the shop does not sell (lines 100-106). *)
Definition absent_entry (product : Product) : ProductInShop :=
  {| sku := prod_sku product; title := prod_title product;
     image := None; price := None; available := false |}.

(** Lines 72-74: the offer of [shop], under its name or a variant of it. *)
Definition find_shop_data (shop : string) (product : Product) : result pyval :=
  let shops_data :=
    match prod_shops product with
    | Some v => v
    | None => PDict []
    end in
  a <- py_get shops_data shop PNone ;;
  if truthy a then Ok a else
  b <- py_get shops_data (replace "-" "_" shop) PNone ;;
  if truthy b then Ok b else
  py_get shops_data (replace "_" "-" shop) PNone.

(** Line 76: [shop_data.get("price")] when [shop_data] is truthy and the
    price is not [None]. *)
Definition priced (shop_data : pyval) : result (option pyval) :=
  if truthy shop_data then
    p <- py_get shop_data "price" PNone ;;
    Ok (if is_None p then None else Some p)
  else Ok None.

(** Lines 71-106: one turn of the loop over the products.  [raw] is the
    value [shop_data.get("price")] returned, which [shop_data["price"]]
    reads again. *)
Definition loop_body (shop : string) (acc : ShopAcc) (product : Product)
  : result ShopAcc :=
  shop_data <- find_shop_data shop product ;;
  p <- priced shop_data ;;
  match p with
  | Some raw =>
      price0 <- py_float raw ;;
      available0 <- py_get shop_data "available" (PBool true) ;;
      images <- py_get shop_data "images" (PList []) ;;
      image0 <- (if truthy images then py_first images else Ok PNone) ;;
      entry <- new_ProductInShop (prod_sku product) (prod_title product)
                 image0 price0 available0 ;;
      if truthy available0 then
        Ok {| acc_total := (acc_total acc + price0)%float;
              acc_products_in_shop := acc_products_in_shop acc ++ [entry];
              acc_available_count := S (acc_available_count acc);
              acc_missing_count := acc_missing_count acc |}
      else
        Ok {| acc_total := acc_total acc;
              acc_products_in_shop := acc_products_in_shop acc ++ [entry];
              acc_available_count := acc_available_count acc;
              acc_missing_count := S (acc_missing_count acc) |}
  | None =>
      Ok {| acc_total := acc_total acc;
            acc_products_in_shop :=
              acc_products_in_shop acc ++ [absent_entry product];
            acc_available_count := acc_available_count acc;
            acc_missing_count := S (acc_missing_count acc) |}
  end.

(** Lines 66-69. *)
Definition acc_init : ShopAcc :=
  {| acc_total := 0%float; acc_products_in_shop := [];
     acc_available_count := 0; acc_missing_count := 0 |}.

(** Lines 66-115: one turn of the loop over the shops. *)
Definition shop_body (products0 : list Product) (shop_totals0 : list ShopTotal)
    (shop0 : string) : result (list ShopTotal) :=
  acc <- for_each (loop_body shop0) products0 acc_init ;;
  if (0 <? acc_available_count acc)%nat then
    Ok (shop_totals0 ++
        [{| shop := shop0;
            total := round3 (acc_total acc);
            products := acc_products_in_shop acc;
            available_count := acc_available_count acc;
            missing_count := acc_missing_count acc |}])
  else Ok shop_totals0.

(** Lines 63-115: the entries in the order of [shop_list], before the sort. *)
Definition emitted (products0 : list Product) (shop_list : list string)
  : result (list ShopTotal) :=
  for_each (shop_body products0) shop_list [].

(** Lines 61-135: the sorted entries, the best shop and its total. *)
Definition calculate_shop_totals_for_products (products0 : list Product)
    (shop_list : list string)
  : result (list ShopTotal * option string * option float) :=
  unsorted <- emitted products0 shop_list ;;
  let shop_totals0 := sort_by_key unsorted in
  let (best_shop0, best_total0) := first_complete shop_totals0 in
  match best_shop0, shop_totals0 with
  | None, st :: _ => Ok (shop_totals0, Some (shop st), Some (total st))
  | _, _ => Ok (shop_totals0, best_shop0, best_total0)
  end.

Definition sku_title (p : Product) : string * string :=
  (prod_sku p, prod_title p).

(** Lines 191-220 of [calculate_best_shop]: the assembly of the response
    from the two product lists that lines 144-189 build from the request
    and the two catalogues. *)
Definition calculate_best_shop (para_products retail_products : list Product)
  : result BestShopResponse :=
  para_result0 <-
    match para_products with
    | [] => Ok None
    | _ :: _ =>
        r <- calculate_shop_totals_for_products para_products PARA_SHOPS ;;
        let '(shop_totals0, best_shop0, best_total0) := r in
        Ok (Some {| category := "para";
                    category_label := "Parapharmacie";
                    best_shop := best_shop0;
                    best_total := best_total0;
                    shop_totals := shop_totals0;
                    result_products := map sku_title para_products |})
    end ;;
  retail_result0 <-
    match retail_products with
    | [] => Ok None
    | _ :: _ =>
        r <- calculate_shop_totals_for_products retail_products RETAIL_SHOPS ;;
        let '(shop_totals0, best_shop0, best_total0) := r in
        Ok (Some {| category := "retail";
                    category_label := "Électronique";
                    best_shop := best_shop0;
                    best_total := best_total0;
                    shop_totals := shop_totals0;
                    result_products := map sku_title retail_products |})
    end ;;
  Ok {| para_result := para_result0; retail_result := retail_result0 |}.

(** ** The loop body read as a function of the product

    These definitions are not in the source: they name what one product
    contributes, so that the result of the loops can be stated.  They are
    related to the source's loops by [loop_body_outcome] and
    [for_each_loop_body] below. *)

(** The entry a product gets at a shop, and the price the shop's total
    grows by: [None] when the product counts as missing. *)
Definition outcome (shop0 : string) (product : Product)
  : result (ProductInShop * option float) :=
  shop_data <- find_shop_data shop0 product ;;
  p <- priced shop_data ;;
  match p with
  | Some raw =>
      price0 <- py_float raw ;;
      available0 <- py_get shop_data "available" (PBool true) ;;
      images <- py_get shop_data "images" (PList []) ;;
      image0 <- (if truthy images then py_first images else Ok PNone) ;;
      entry <- new_ProductInShop (prod_sku product) (prod_title product)
                 image0 price0 available0 ;;
      Ok (entry, if truthy available0 then Some price0 else None)
  | None => Ok (absent_entry product, None)
  end.

Fixpoint outcomes (shop0 : string) (products0 : list Product)
  : result (list (ProductInShop * option float)) :=
  match products0 with
  | [] => Ok []
  | p :: ps => o <- outcome shop0 p ;; os <- outcomes shop0 ps ;; Ok (o :: os)
  end.

Definition record (acc : ShopAcc) (o : ProductInShop * option float) : ShopAcc :=
  match snd o with
  | Some x =>
      {| acc_total := (acc_total acc + x)%float;
         acc_products_in_shop := acc_products_in_shop acc ++ [fst o];
         acc_available_count := S (acc_available_count acc);
         acc_missing_count := acc_missing_count acc |}
  | None =>
      {| acc_total := acc_total acc;
         acc_products_in_shop := acc_products_in_shop acc ++ [fst o];
         acc_available_count := acc_available_count acc;
         acc_missing_count := S (acc_missing_count acc) |}
  end.

(** The outcome counts the product as missing. *)
Definition is_missing (o : ProductInShop * option float) : bool :=
  match snd o with
  | None => true
  | Some _ => false
  end.

(** The prices a shop's total is the sum of, in product order. *)
Definition added_prices (os : list (ProductInShop * option float)) : list float :=
  flat_map (fun o => match snd o with Some x => [x] | None => [] end) os.

(** [total = 0.0] and then [total += x] for each [x]. *)
Definition sum_prices (xs : list float) : float :=
  fold_left PrimFloat.add xs 0%float.

(** Lines 109-115: the entry of a shop whose loop ended in [acc]. *)
Definition shop_total_of (shop0 : string) (acc : ShopAcc) : ShopTotal :=
  {| shop := shop0;
     total := round3 (acc_total acc);
     products := acc_products_in_shop acc;
     available_count := acc_available_count acc;
     missing_count := acc_missing_count acc |}.

(** The shops of [shop_list] that get an entry. *)
Definition sells (products0 : list Product) (shop0 : string) : bool :=
  match for_each (loop_body shop0) products0 acc_init with
  | Ok acc => (0 <? acc_available_count acc)%nat
  | Raise _ => false
  end.

(** The entries of the shops of a list, in its order. *)
Definition entries (ps : list Product) (shop_list : list string) : list ShopTotal :=
  flat_map
    (fun s =>
       match for_each (loop_body s) ps acc_init with
       | Ok acc =>
           if (0 <? acc_available_count acc)%nat then [shop_total_of s acc]
           else []
       | Raise _ => []
       end)
    shop_list.

End Ranking.

(** ** The route (lines 138-220)

    The request is a list of items; the two catalogues are read through
    [find]; what comes back is a response, the [HTTPException] of line 145,
    or an exception of the ranking that escapes.  The identifiers of the
    documents and the reads of the catalogues are given: [ObjectId(s)] with
    [None] for a string it rejects, [str(oid)], and the documents that
    [merged_products.find({"_id": {"$in": ids}})] returns in each database.
    A document holds a title that is a string when it has one.  The line
    printed for a rejected identifier is not modelled. *)

Record BagItem : Type := {
  item_sku : string;
  item_source : string
}.

Record Doc (oid : Type) : Type := {
  doc_id : oid;
  doc_title : option string;
  doc_shops : option pyval
}.

Arguments doc_id {oid} d.
Arguments doc_title {oid} d.
Arguments doc_shops {oid} d.

Class Database (oid : Type) : Type := {
  ObjectId : string -> option oid;
  oid_str : oid -> string;
  find_para : list oid -> list (Doc oid);
  find_retail : list oid -> list (Doc oid)
}.

Inductive reply : Type :=
| Reply (r : BestShopResponse)
| HTTPException (status_code : nat) (detail : string)
| Failed (e : exn).

Section Route.

Context {L : Library} {oid : Type} {D : Database oid}.

(** Lines 151-160: one turn of the loop over the items; the pair is
    [(para_ids, retail_ids)]. *)
Definition split_body (ids : list oid * list oid) (item : BagItem)
  : list oid * list oid :=
  match ObjectId (item_sku item) with
  | Some obj_id =>
      if (item_source item =? "para")%string
      then (fst ids ++ [obj_id], snd ids)
      else (fst ids, snd ids ++ [obj_id])
  | None => ids
  end.

(** Lines 148-160. *)
Definition split_ids (items : list BagItem) : list oid * list oid :=
  fold_left split_body items ([], []).

(** Lines 171-176 and 184-189: the product made of a document; its key
    ["source"] is read by nothing and is left out. *)
Definition product_of_doc (doc : Doc oid) : Product :=
  {| prod_sku := oid_str (doc_id doc);
     prod_title :=
       match doc_title doc with
       | Some t => t
       | None => "Unknown"
       end;
     prod_shops :=
       Some match doc_shops doc with
            | Some v => v
            | None => PDict []
            end |}.

(** Lines 166-176 and 179-189: a catalogue is read only for a list of
    identifiers that is not empty. *)
Definition fetch (find : list oid -> list (Doc oid)) (ids : list oid)
  : list Product :=
  match ids with
  | [] => []
  | _ :: _ => map product_of_doc (find ids)
  end.

(** Lines 138-220: [calculate_best_shop] as the route runs it. *)
Definition post_best_shop (items : list BagItem) : reply :=
  match items with
  | [] => HTTPException 400 "No items provided"
  | _ :: _ =>
      let (para_ids, retail_ids) := split_ids items in
      let para_products := fetch find_para para_ids in
      let retail_products := fetch find_retail retail_ids in
      match calculate_best_shop para_products retail_products with
      | Ok r => Reply r
      | Raise e => Failed e
      end
  end.

(** The items with an identifier that [ObjectId] accepts. *)
Definition well_formed (item : BagItem) : bool :=
  match ObjectId (item_sku item) with
  | Some _ => true
  | None => false
  end.

(** The identifiers of the items of a category, in the order of the
    request. *)
Definition ids_where (keep : BagItem -> bool) (items : list BagItem) : list oid :=
  flat_map
    (fun item =>
       if keep item then
         match ObjectId (item_sku item) with
         | Some obj_id => [obj_id]
         | None => []
         end
       else [])
    items.

Definition is_para (item : BagItem) : bool := (item_source item =? "para")%string.

End Route.

(** The prices of the records flagged available, in order. *)
Definition flagged_prices (l : list ProductInShop) : list float :=
  flat_map
    (fun e =>
       if available e then
         match price e with
         | Some x => [x]
         | None => []
         end
       else [])
    l.

(** The name holds neither a hyphen nor an underscore. *)
Fixpoint no_separator (s : string) : bool :=
  match s with
  | EmptyString => true
  | String c s' =>
      negb (c =? "-")%char && negb (c =? "_")%char && no_separator s'
  end.

Definition is_dict (v : pyval) : bool :=
  match v with
  | PDict _ => true
  | _ => false
  end.

(** What the counts of an entry are, without the order of the products. *)
Definition counts_of (st : ShopTotal) : string * nat * nat :=
  (shop st, available_count st, missing_count st).

(** ** The lookup of a shop in the words of the specification *)

(** The lookup as the specification words it: the exact key first, then
    each variant, and the first key that is present wins. *)
Definition first_present (shop0 : string) (d : list (string * pyval))
  : option pyval :=
  match assoc shop0 d with
  | Some v => Some v
  | None =>
      match assoc (replace "-" "_" shop0) d with
      | Some v => Some v
      | None => assoc (replace "_" "-" shop0) d
      end
  end.

(** [d.get(k)]. *)
Definition get_or_None (d : list (string * pyval)) (k : string) : pyval :=
  match assoc k d with
  | Some v => v
  | None => PNone
  end.

(** ** A concrete library

    [float()] on ASCII strings as CPython parses them (underscores between
    digits, surrounding white space, a sign, [inf], [infinity], [nan], or a
    decimal with an optional exponent), and pydantic's strict validation.
    The examples below are run with it. *)

Definition is_space (c : ascii) : bool :=
  let n := nat_of_ascii c in
  (n =? 32)%nat || ((9 <=? n)%nat && (n <=? 13)%nat).

Definition is_digit (c : ascii) : bool :=
  let n := nat_of_ascii c in
  (48 <=? n)%nat && (n <=? 57)%nat.

Definition digit_value (c : ascii) : Z := Z.of_nat (nat_of_ascii c) - 48.

Definition lower (c : ascii) : ascii :=
  let n := nat_of_ascii c in
  if (65 <=? n)%nat && (n <=? 90)%nat then ascii_of_nat (n + 32) else c.

Fixpoint lower_string (s : string) : string :=
  match s with
  | EmptyString => EmptyString
  | String c s' => String (lower c) (lower_string s')
  end.

Fixpoint lstrip (s : string) : string :=
  match s with
  | String c s' => if is_space c then lstrip s' else s
  | EmptyString => s
  end.

Fixpoint string_rev (s acc : string) : string :=
  match s with
  | EmptyString => acc
  | String c s' => string_rev s' (String c acc)
  end.

Definition strip (s : string) : string :=
  string_rev (lstrip (string_rev (lstrip s) EmptyString)) EmptyString.

(** An underscore may only stand between two digits. *)
Fixpoint remove_underscores (prev : ascii) (s : string) : option string :=
  match s with
  | EmptyString => if (prev =? "_")%char then None else Some EmptyString
  | String c s' =>
      if (c =? "_")%char then
        if is_digit prev then remove_underscores c s' else None
      else if (prev =? "_")%char && negb (is_digit c) then None
      else option_map (String c) (remove_underscores c s')
  end.

(** The digits at the head of [s]: their number, their value after [acc],
    and the rest of [s]. *)
Fixpoint read_digits (s : string) (count : nat) (acc : Z) : nat * Z * string :=
  match s with
  | String c s' =>
      if is_digit c then read_digits s' (S count) (acc * 10 + digit_value c)
      else (count, acc, s)
  | EmptyString => (count, acc, s)
  end.

Definition read_sign (s : string) : bool * string :=
  match s with
  | String "-" s' => (true, s')
  | String "+" s' => (false, s')
  | _ => (false, s)
  end.

(** The double nearest to [n * 10^k], with sign [sign]. *)
Definition decimal_to_float (sign : bool) (n k : Z) : float :=
  match n with
  | Zpos p =>
      match k with
      | Zneg q => ratio_to_float sign p (Pos.pow 10 q)
      | _ => SF2Prim (binary_round prec emax sign (p * Z.to_pos (10 ^ k)) 0)
      end
  | _ => SF2Prim (S754_zero sign)
  end.

(** [digits [. digits] [e [sign] digits]], with a digit before the exponent. *)
Definition read_decimal (sign : bool) (s : string) : option float :=
  let '(n1, v1, s1) := read_digits s 0 0 in
  let '(n2, v2, s2) :=
    match s1 with
    | String "." s1' => read_digits s1' 0 v1
    | _ => (0%nat, v1, s1)
    end in
  if (n1 + n2 =? 0)%nat then None else
  match s2 with
  | EmptyString => Some (decimal_to_float sign v2 (- Z.of_nat n2))
  | String c s2' =>
      if (lower c =? "e")%char then
        let (esign, s3) := read_sign s2' in
        match read_digits s3 0 0 with
        | (S _, e, EmptyString) =>
            Some (decimal_to_float sign v2
                    ((if esign then - e else e) - Z.of_nat n2))
        | _ => None
        end
      else None
  end.

Definition ascii_float_of_str (s : string) : option float :=
  match remove_underscores Ascii.zero s with
  | None => None
  | Some s0 =>
      let (sign, body) := read_sign (strip s0) in
      let word := lower_string body in
      if ((word =? "inf") || (word =? "infinity"))%string then
        Some (if sign then neg_infinity else infinity)
      else if (word =? "nan")%string then Some nan
      else read_decimal sign body
  end.

Definition strict_bool (v : pyval) : option bool :=
  match v with
  | PBool b => Some b
  | _ => None
  end.

Definition strict_optional_str (v : pyval) : option (option string) :=
  match v with
  | PNone => Some None
  | PStr s => Some (Some s)
  | _ => None
  end.

Definition strict : Library :=
  {| float_of_str := ascii_float_of_str;
     as_bool := strict_bool;
     as_optional_str := strict_optional_str |}.

(** ** Example data

    A bag of two products over three shops, run with the library [strict]:
    shop X sells the soap and lists the balm as unavailable, shop Y sells
    both (its balm offer has no [available] key), shop Z sells neither. *)

Definition soap : Product :=
  {| prod_sku := "p1"; prod_title := "Soap";
     prod_shops :=
       Some (PDict
         [("X", PDict [("price", PInt 10); ("available", PBool true)]);
          ("Y", PDict [("price", PInt 8); ("available", PBool true);
                       ("images", PList [PStr "soap.png"])])]) |}.

Definition balm_at_X : pyval :=
  PDict [("price", PFloat 5.5); ("available", PBool false)].

Definition balm_at_Y : list (string * pyval) := [("price", PInt 4)].

Definition balm : Product :=
  {| prod_sku := "p2"; prod_title := "Balm";
     prod_shops := Some (PDict [("X", balm_at_X); ("Y", PDict balm_at_Y)]) |}.

Definition bag : list Product := [soap; balm].

Definition bag_shops : list string := ["X"; "Y"; "Z"].

Definition soap_X : ProductInShop :=
  {| sku := "p1"; title := "Soap"; image := None;
     price := Some 10%float; available := true |}.

Definition soap_Y : ProductInShop :=
  {| sku := "p1"; title := "Soap"; image := Some "soap.png";
     price := Some 8%float; available := true |}.

Definition balm_X : ProductInShop :=
  {| sku := "p2"; title := "Balm"; image := None;
     price := Some 5.5%float; available := false |}.

Definition balm_Y : ProductInShop :=
  {| sku := "p2"; title := "Balm"; image := None;
     price := Some 4%float; available := true |}.

Definition total_X : ShopTotal :=
  {| shop := "X"; total := 10%float; products := [soap_X; balm_X];
     available_count := 1; missing_count := 1 |}.

Definition total_Y : ShopTotal :=
  {| shop := "Y"; total := 12%float; products := [soap_Y; balm_Y];
     available_count := 2; missing_count := 0 |}.

Definition bag_totals : list ShopTotal := [total_Y; total_X].

(** A product whose only offer has a negative price, and one whose only
    offer has a price that is no number. *)
Definition refund_offer : pyval := PDict [("price", PInt (-5))].

Definition refund : Product :=
  {| prod_sku := "p3"; prod_title := "Refund";
     prod_shops := Some (PDict [("X", refund_offer)]) |}.

Definition refund_X : ProductInShop :=
  {| sku := "p3"; title := "Refund"; image := None;
     price := Some (-5)%float; available := true |}.

Definition unpriced : Product :=
  {| prod_sku := "p4"; prod_title := "Unpriced";
     prod_shops := Some (PDict [("X", PDict [("price", PStr "N/A")])]) |}.

(** A product with an empty offer under the shop's name and a priced offer
    under the variant of the name. *)
Definition variant_offer : pyval := PDict [("price", PInt 5)].

Definition two_keys : list (string * pyval) :=
  [("pharma-shop", PDict []); ("pharma_shop", variant_offer)].

Definition cream : Product :=
  {| prod_sku := "p5"; prod_title := "Cream";
     prod_shops := Some (PDict two_keys) |}.

Definition after_balm_at_X : ShopAcc :=
  {| acc_total := 0%float; acc_products_in_shop := [balm_X];
     acc_available_count := 0; acc_missing_count := 1 |}.

Definition after_balm_at_Y : ShopAcc :=
  {| acc_total := 4%float; acc_products_in_shop := [balm_Y];
     acc_available_count := 1; acc_missing_count := 0 |}.

(** A catalogue of two databases whose identifiers are strings of 24
    hexadecimal digits, and a request of four items: one of them has an
    identifier that is no [ObjectId], one names a document without title
    and without offers. *)

Definition is_hex (c : ascii) : bool :=
  let n := nat_of_ascii c in
  is_digit c || ((97 <=? n)%nat && (n <=? 102)%nat)
  || ((65 <=? n)%nat && (n <=? 70)%nat).

Fixpoint all_hex (s : string) : bool :=
  match s with
  | EmptyString => true
  | String c s' => is_hex c && all_hex s'
  end.

Definition hex_ObjectId (s : string) : option string :=
  if (String.length s =? 24)%nat && all_hex s then Some (lower_string s)
  else None.

Definition soap_id : string := "64b7f0c2a1d3e4f5a6b7c8d9".
Definition blank_id : string := "64b7f0c2a1d3e4f5a6b7c8da".
Definition phone_id : string := "64b7f0c2a1d3e4f5a6b7c8db".

Definition para_catalogue : list (Doc string) :=
  [{| doc_id := soap_id; doc_title := Some "Soap";
      doc_shops :=
        Some (PDict
          [("parashop", PDict [("price", PInt 10)]);
           ("pharma_shop", PDict [("price", PFloat 9.5);
                                  ("available", PBool true)])]) |};
   {| doc_id := blank_id; doc_title := None; doc_shops := None |}].

Definition retail_catalogue : list (Doc string) :=
  [{| doc_id := phone_id; doc_title := Some "Phone";
      doc_shops := Some (PDict [("mytek", PDict [("price", PInt 899)])]) |}].

Definition find_in (catalogue : list (Doc string)) (ids : list string)
  : list (Doc string) :=
  filter (fun d => existsb (String.eqb (doc_id d)) ids) catalogue.

Definition shelf : Database string :=
  {| ObjectId := hex_ObjectId;
     oid_str := fun o => o;
     find_para := find_in para_catalogue;
     find_retail := find_in retail_catalogue |}.

Definition request : list BagItem :=
  [{| item_sku := phone_id; item_source := "retail" |};
   {| item_sku := "not-an-id"; item_source := "para" |};
   {| item_sku := blank_id; item_source := "para" |};
   {| item_sku := soap_id; item_source := "Para" |};
   {| item_sku := soap_id; item_source := "para" |}].

Definition soap_parashop : ProductInShop :=
  {| sku := soap_id; title := "Soap"; image := None;
     price := Some 10%float; available := true |}.

Definition soap_pharma : ProductInShop :=
  {| sku := soap_id; title := "Soap"; image := None;
     price := Some 9.5%float; available := true |}.

Definition blank_absent : ProductInShop :=
  {| sku := blank_id; title := "Unknown"; image := None;
     price := None; available := false |}.

Definition request_response : BestShopResponse :=
  {| para_result :=
       Some {| category := "para"; category_label := "Parapharmacie";
               best_shop := Some "pharma-shop";
               best_total := Some 9.5%float;
               shop_totals :=
                 [{| shop := "pharma-shop"; total := 9.5%float;
                     products := [soap_pharma; blank_absent];
                     available_count := 1; missing_count := 1 |};
                  {| shop := "parashop"; total := 10%float;
                     products := [soap_parashop; blank_absent];
                     available_count := 1; missing_count := 1 |}];
               result_products := [(soap_id, "Soap"); (blank_id, "Unknown")] |};
     retail_result :=
       Some {| category := "retail"; category_label := "Électronique";
               best_shop := Some "mytek";
               best_total := Some 899%float;
               shop_totals :=
                 [{| shop := "mytek"; total := 899%float;
                     products := [{| sku := phone_id; title := "Phone";
                                     image := None; price := Some 899%float;
                                     available := true |}];
                     available_count := 1; missing_count := 0 |}];
               result_products := [(phone_id, "Phone")] |} |}.

(** A catalogue with a document whose ["shops"] is null. *)
Definition broken_shelf : Database string :=
  {| ObjectId := hex_ObjectId;
     oid_str := fun o => o;
     find_para := find_in para_catalogue;
     find_retail :=
       find_in [{| doc_id := phone_id; doc_title := Some "Phone";
                   doc_shops := Some PNone |}] |}.

(** A product whose ["shops"] is null. *)
Definition shopless : Product :=
  {| prod_sku := "p7"; prod_title := "Shopless"; prod_shops := Some PNone |}.

(** ** Offers of the documented shape

    The offers the data model describes: a price that is absent, [None] or a
    number; an [available] flag that is absent or a boolean; an [images]
    list that is absent, [None], empty, or starts with a string. *)

Definition typed_price (o : option pyval) : bool :=
  match o with
  | None | Some PNone | Some (PFloat _) => true
  | Some (PInt n) =>
      match float_of_int n with
      | Ok _ => true
      | Raise _ => false
      end
  | _ => false
  end.

Definition typed_flag (o : option pyval) : bool :=
  match o with
  | None | Some (PBool _) => true
  | _ => false
  end.

Definition typed_images (o : option pyval) : bool :=
  match o with
  | None | Some PNone | Some (PList []) | Some (PList (PStr _ :: _)) => true
  | _ => false
  end.

Definition typed_offer (v : pyval) : bool :=
  match v with
  | PNone => true
  | PDict d =>
      typed_price (assoc "price" d) && typed_flag (assoc "available" d)
      && typed_images (assoc "images" d)
  | _ => false
  end.

Definition typed_product (p : Product) : bool :=
  match prod_shops p with
  | None => true
  | Some (PDict d) => forallb (fun kv => typed_offer (snd kv)) d
  | Some _ => false
  end.

(** A document whose offers have the documented shape. *)
Definition typed_doc {oid : Type} {D : Database oid} (doc : Doc oid) : bool :=
  typed_product (product_of_doc doc).

(** ** Generic facts about [result] and [for_each] *)

Lemma bind_Ok {A B : Type} (r : result A) (k : A -> result B) (b : B) :
  bind r k = Ok b -> exists a, r = Ok a /\ k a = Ok b.
Proof.
  destruct r as [a|e]; simpl; intros H.
  - exists a. split; [reflexivity | exact H].
  - discriminate H.
Qed.

Ltac bind_inv H :=
  let a := fresh "a" in
  let Ha := fresh "Ha" in
  apply bind_Ok in H; destruct H as (a & Ha & H).

(** A loop that raises at some turn raises. *)
Lemma for_each_raises {A S : Type} (f : S -> A -> result S) (l : list A) (x : A) :
  In x l ->
  (forall s, exists e, f s x = Raise e) ->
  forall s, exists e, for_each f l s = Raise e.
Proof.
  induction l as [|y l IH]; simpl; intros Hin Hx s; [contradiction|].
  destruct (f s y) as [s'|e] eqn:E; simpl; [|eauto].
  destruct Hin as [->|Hin].
  - destruct (Hx s) as (e & He). congruence.
  - apply IH; assumption.
Qed.

(** ** The loop over the products of one shop *)

Section LoopFacts.

Context {L : Library}.

(** The source's loop body records the outcome of the product. *)
Lemma loop_body_outcome (shop0 : string) (acc : ShopAcc) (p : Product) :
  loop_body shop0 acc p = bind (outcome shop0 p) (fun o => Ok (record acc o)).
Proof.
  unfold loop_body, outcome.
  destruct (find_shop_data shop0 p) as [sd|e]; simpl; [|reflexivity].
  destruct (priced sd) as [[raw|]|e]; simpl; try reflexivity.
  destruct (py_float raw) as [x|e]; simpl; [|reflexivity].
  destruct (py_get sd "available" (PBool true)) as [a|e]; simpl; [|reflexivity].
  destruct (py_get sd "images" (PList [])) as [im|e]; simpl; [|reflexivity].
  destruct (if truthy im then py_first im else Ok PNone) as [i|e]; simpl;
    [|reflexivity].
  destruct (new_ProductInShop _ _ i x a) as [entry|e]; simpl; [|reflexivity].
  destruct (truthy a); reflexivity.
Qed.

Lemma for_each_loop_body (shop0 : string) (ps : list Product) (acc : ShopAcc) :
  for_each (loop_body shop0) ps acc
  = bind (outcomes shop0 ps) (fun os => Ok (fold_left record os acc)).
Proof.
  revert acc. induction ps as [|p ps IH]; intros acc; simpl.
  - reflexivity.
  - rewrite loop_body_outcome.
    destruct (outcome shop0 p) as [o|e]; simpl; [|reflexivity].
    rewrite IH. destruct (outcomes shop0 ps); reflexivity.
Qed.

Lemma outcomes_Forall2 (shop0 : string) (ps : list Product)
    (os : list (ProductInShop * option float)) :
  outcomes shop0 ps = Ok os ->
  Forall2 (fun p o => outcome shop0 p = Ok o) ps os.
Proof.
  revert os. induction ps as [|p ps IH]; simpl; intros os H.
  - injection H as <-. constructor.
  - bind_inv H. bind_inv H. injection H as <-.
    constructor; [assumption | apply IH; assumption].
Qed.

Lemma outcome_names (shop0 : string) (p : Product)
    (o : ProductInShop * option float) :
  outcome shop0 p = Ok o ->
  sku (fst o) = prod_sku p /\ title (fst o) = prod_title p.
Proof.
  unfold outcome. intros H.
  bind_inv H. bind_inv H. destruct a0 as [raw|].
  - do 5 bind_inv H. injection H as <-. simpl.
    unfold new_ProductInShop in Ha5.
    destruct (as_optional_str a3), (as_bool a1); try discriminate.
    injection Ha5 as <-. split; reflexivity.
  - injection H as <-. split; reflexivity.
Qed.

Lemma record_products (os : list (ProductInShop * option float)) (acc : ShopAcc) :
  acc_products_in_shop (fold_left record os acc)
  = acc_products_in_shop acc ++ map fst os.
Proof.
  revert acc. induction os as [|o os IH]; intros acc; simpl.
  - symmetry. apply app_nil_r.
  - rewrite IH. unfold record. destruct (snd o); simpl;
      rewrite <- app_assoc; reflexivity.
Qed.

Lemma record_total (os : list (ProductInShop * option float)) (acc : ShopAcc) :
  acc_total (fold_left record os acc)
  = fold_left PrimFloat.add (added_prices os) (acc_total acc).
Proof.
  revert acc. induction os as [|o os IH]; intros acc; simpl.
  - reflexivity.
  - rewrite IH. unfold added_prices. simpl. unfold record.
    destruct (snd o); reflexivity.
Qed.

Lemma record_available (os : list (ProductInShop * option float)) (acc : ShopAcc) :
  acc_available_count (fold_left record os acc)
  = acc_available_count acc + length (added_prices os).
Proof.
  revert acc. induction os as [|o os IH]; intros acc; simpl.
  - lia.
  - rewrite IH. unfold added_prices. simpl. unfold record.
    destruct (snd o); simpl; lia.
Qed.

Lemma record_counts (os : list (ProductInShop * option float)) (acc : ShopAcc) :
  acc_available_count (fold_left record os acc)
  + acc_missing_count (fold_left record os acc)
  = acc_available_count acc + acc_missing_count acc + length os.
Proof.
  revert acc. induction os as [|o os IH]; intros acc; simpl.
  - lia.
  - rewrite IH. unfold record. destruct (snd o); simpl; lia.
Qed.

(** ** The loop over the shops *)

Lemma for_each_shop_body (ps : list Product) (shop_list : list string)
    (l0 l : list ShopTotal) :
  for_each (shop_body ps) shop_list l0 = Ok l ->
  l = l0 ++ entries ps shop_list.
Proof.
  revert l0. induction shop_list as [|s shop_list IH]; simpl; intros l0 H.
  - injection H as <-. symmetry. apply app_nil_r.
  - bind_inv H. unfold shop_body in Ha. bind_inv Ha.
    unfold entries. simpl. rewrite Ha0.
    apply IH in H. subst l.
    destruct (0 <? acc_available_count a0)%nat; injection Ha as <-.
    + rewrite <- app_assoc. reflexivity.
    + reflexivity.
Qed.

Lemma emitted_entries (ps : list Product) (shop_list : list string)
    (l : list ShopTotal) :
  emitted ps shop_list = Ok l -> l = entries ps shop_list.
Proof. intros H. apply for_each_shop_body in H. exact H. Qed.

Lemma in_entries (ps : list Product) (shop_list : list string) (st : ShopTotal) :
  In st (entries ps shop_list) ->
  In (shop st) shop_list /\
  exists acc, for_each (loop_body (shop st)) ps acc_init = Ok acc /\
              (0 < acc_available_count acc)%nat /\
              st = shop_total_of (shop st) acc.
Proof.
  unfold entries. rewrite in_flat_map. intros (s & Hs & Hin).
  destruct (for_each (loop_body s) ps acc_init) as [acc|e] eqn:E;
    [|contradiction].
  destruct (0 <? acc_available_count acc)%nat eqn:Hpos; [|contradiction].
  destruct Hin as [<-|[]]. simpl.
  split; [exact Hs|]. exists acc. split; [exact E|].
  split; [apply Nat.ltb_lt; exact Hpos | reflexivity].
Qed.

Lemma entries_shops (ps : list Product) (shop_list : list string) :
  map shop (entries ps shop_list) = filter (sells ps) shop_list.
Proof.
  induction shop_list as [|s shop_list IH]; [reflexivity|].
  unfold entries in *. simpl. rewrite map_app, IH. unfold sells at 2.
  destruct (for_each (loop_body s) ps acc_init) as [acc|e]; [|reflexivity].
  destruct (0 <? acc_available_count acc)%nat; reflexivity.
Qed.

End LoopFacts.

Lemma filter_none {A : Type} (p : A -> bool) (l : list A) :
  (forall z, In z l -> p z = false) -> filter p l = [].
Proof.
  induction l as [|y l IH]; simpl; intros H; [reflexivity|].
  rewrite (H y) by (left; reflexivity). apply IH. intros z Hz. apply H.
  right. exact Hz.
Qed.

(** ** Insertion sort is a stable sort

    [lt] is a strict weak order on the elements that satisfy [P]. *)

Section StableSort.

Context {A : Type} (lt : A -> A -> bool) (P : A -> Prop).

Hypothesis lt_irrefl : forall a, lt a a = false.
Hypothesis lt_trans :
  forall a b c, lt a b = true -> lt b c = true -> lt a c = true.
Hypothesis lt_negtrans :
  forall a b c, P a -> P b -> P c ->
                lt a b = false -> lt b c = false -> lt a c = false.

Lemma lt_asym (a b : A) : lt a b = true -> lt b a = false.
Proof.
  intros Hab. destruct (lt b a) eqn:Hba; [|reflexivity].
  rewrite <- (lt_irrefl a). symmetry. eapply lt_trans; eassumption.
Qed.

Lemma insert_by_perm (x : A) (l : list A) : Permutation (insert_by lt x l) (x :: l).
Proof.
  induction l as [|y l IH]; simpl.
  - apply Permutation_refl.
  - destruct (lt x y).
    + apply Permutation_refl.
    + eapply Permutation_trans; [apply perm_skip, IH | apply perm_swap].
Qed.

Lemma fold_insert_perm (l acc : list A) :
  Permutation (fold_left (fun sorted x => insert_by lt x sorted) l acc) (acc ++ l).
Proof.
  revert acc. induction l as [|x l IH]; intros acc; simpl.
  - rewrite app_nil_r. apply Permutation_refl.
  - eapply Permutation_trans; [apply IH|].
    eapply Permutation_trans;
      [apply Permutation_app_tail, insert_by_perm|].
    simpl. apply Permutation_middle.
Qed.

Lemma sort_by_perm (l : list A) : Permutation (sort_by lt l) l.
Proof. apply (fold_insert_perm l []). Qed.

Lemma insert_by_sorted (x : A) (l : list A) :
  P x -> Forall P l ->
  StronglySorted (not_after lt) l -> StronglySorted (not_after lt) (insert_by lt x l).
Proof.
  intros Px Pl Hs. induction Hs as [|y l Hs IH Hy]; simpl.
  - repeat constructor.
  - inversion Pl as [|? ? Py Pl']; subst.
    destruct (lt x y) eqn:Hxy.
    + constructor; [constructor; assumption|].
      constructor; [apply lt_asym; exact Hxy|].
      rewrite Forall_forall in *. intros z Hz.
      unfold not_after. destruct (lt z x) eqn:Hzx; [|reflexivity].
      rewrite <- (Hy z Hz). symmetry. eapply lt_trans; eassumption.
    + constructor; [apply IH; assumption|].
      rewrite Forall_forall in *. intros z Hz.
      apply (Permutation_in _ (insert_by_perm x l)) in Hz.
      destruct Hz as [<-|Hz]; [exact Hxy | apply Hy; exact Hz].
Qed.

Lemma insert_by_Forall (Q : A -> Prop) (x : A) (l : list A) :
  Q x -> Forall Q l -> Forall Q (insert_by lt x l).
Proof.
  intros Qx Ql. rewrite Forall_forall in *. intros z Hz.
  apply (Permutation_in _ (insert_by_perm x l)) in Hz.
  destruct Hz as [<-|Hz]; auto.
Qed.

(** Among the entries tied with [a], [x] lands last. *)
Lemma insert_by_stable (a x : A) (l : list A) :
  P a -> P x -> Forall P l -> StronglySorted (not_after lt) l ->
  filter (tied lt a) (insert_by lt x l) = filter (tied lt a) l ++ filter (tied lt a) [x].
Proof.
  intros Pa Px Pl Hs. induction Hs as [|y l Hs IH Hy]; simpl.
  - reflexivity.
  - inversion Pl as [|? ? Py Pl']; subst.
    destruct (lt x y) eqn:Hxy.
    + simpl. destruct (tied lt a x) eqn:Hax.
      * assert (Hnone : forall z, In z (y :: l) -> tied lt a z = false).
        { intros z Hz.
          assert (Pz : P z) by (rewrite Forall_forall in Pl; auto).
          assert (Hxz : lt x z = true).
          { destruct Hz as [<-|Hz]; [exact Hxy|].
            rewrite Forall_forall in Hy.
            destruct (lt x z) eqn:E; [reflexivity|].
            rewrite <- Hxy. symmetry.
            apply (lt_negtrans x z y); auto. apply Hy; exact Hz. }
          unfold tied in *. apply andb_true_iff in Hax.
          destruct Hax as [_ Hxa]. apply negb_true_iff in Hxa.
          destruct (lt a z) eqn:Haz; [reflexivity|]. exfalso.
          rewrite (lt_negtrans x a z) in Hxz by auto. discriminate. }
        assert (Hnil : filter (tied lt a) (y :: l) = []).
        { apply filter_none. exact Hnone. }
        simpl in Hnil. rewrite Hnil. reflexivity.
      * rewrite app_nil_r. reflexivity.
    + simpl. rewrite IH by assumption.
      destruct (tied lt a y); reflexivity.
Qed.

Lemma fold_insert_sorted (l acc : list A) :
  Forall P l -> Forall P acc -> StronglySorted (not_after lt) acc ->
  StronglySorted (not_after lt) (fold_left (fun sorted x => insert_by lt x sorted) l acc).
Proof.
  revert acc. induction l as [|x l IH]; intros acc Pl Pacc Hs; simpl.
  - exact Hs.
  - inversion Pl; subst. apply IH; auto.
    + apply insert_by_Forall; assumption.
    + apply insert_by_sorted; assumption.
Qed.

Lemma fold_insert_stable (a : A) (l acc : list A) :
  P a -> Forall P l -> Forall P acc -> StronglySorted (not_after lt) acc ->
  filter (tied lt a) (fold_left (fun sorted x => insert_by lt x sorted) l acc)
  = filter (tied lt a) (acc ++ l).
Proof.
  intros Pa. revert acc. induction l as [|x l IH]; intros acc Pl Pacc Hs; simpl.
  - rewrite app_nil_r. reflexivity.
  - inversion Pl; subst. rewrite IH; auto.
    + rewrite !filter_app. rewrite insert_by_stable by assumption.
      rewrite <- app_assoc. rewrite <- filter_app. reflexivity.
    + apply insert_by_Forall; assumption.
    + apply insert_by_sorted; assumption.
Qed.

Lemma sort_by_sorted (l : list A) :
  Forall P l -> StronglySorted (not_after lt) (sort_by lt l).
Proof. intros Pl. apply fold_insert_sorted; auto. constructor. Qed.

Lemma sort_by_stable (a : A) (l : list A) :
  P a -> Forall P l -> filter (tied lt a) (sort_by lt l) = filter (tied lt a) l.
Proof.
  intros Pa Pl. unfold sort_by. rewrite fold_insert_stable; auto. constructor.
Qed.

End StableSort.

Lemma StronglySorted_nth {A : Type} (R : A -> A -> Prop) (l : list A) :
  StronglySorted R l ->
  forall i j a b, i < j -> nth_error l i = Some a -> nth_error l j = Some b ->
                  R a b.
Proof.
  induction 1 as [|x l Hs IH Hx]; intros i j a b Hij Ha Hb.
  - destruct i; discriminate.
  - destruct j as [|j]; [lia|]. simpl in Hb.
    destruct i as [|i]; simpl in Ha.
    + injection Ha as <-. rewrite Forall_forall in Hx.
      apply Hx. eapply nth_error_In; eassumption.
    + eapply IH; [|eassumption|eassumption]. lia.
Qed.

(** ** The order of binary64 numbers

    [<] and [==] of floats are read through their specification on
    [spec_float]; away from NaN they form a strict weak order. *)

Ltac compare_cases :=
  repeat match goal with
  | |- context [Z.compare ?a ?b] => destruct (Z.compare_spec a b); subst
  | H : context [Z.compare ?a ?b] |- _ => destruct (Z.compare_spec a b); subst
  | |- context [Pos.compare ?a ?b] => destruct (Pos.compare_spec a b); subst
  | H : context [Pos.compare ?a ?b] |- _ => destruct (Pos.compare_spec a b); subst
  end.

Lemma SFcompare_lt_trans (a b c : spec_float) :
  SFcompare a b = Some Lt -> SFcompare b c = Some Lt -> SFcompare a c = Some Lt.
Proof.
  destruct a as [sa|sa| |sa ma ea], b as [sb|sb| |sb mb eb],
           c as [sc|sc| |sc mc ec]; simpl;
    try discriminate;
    try (destruct sa); try (destruct sb); try (destruct sc);
    try discriminate; try reflexivity;
    fold (Pos.compare ma mb); fold (Pos.compare mb mc); fold (Pos.compare ma mc);
    intros H1 H2; compare_cases; simpl in *;
    try discriminate; try reflexivity; try lia.
Qed.

Lemma SFcompare_ge_trans (a b c : spec_float) :
  b <> S754_nan ->
  SFcompare a b <> Some Lt -> SFcompare b c <> Some Lt -> SFcompare a c <> Some Lt.
Proof.
  destruct a as [sa|sa| |sa ma ea], b as [sb|sb| |sb mb eb],
           c as [sc|sc| |sc mc ec]; simpl; intros Hb;
    try congruence;
    try (destruct sa); try (destruct sb); try (destruct sc);
    try congruence;
    fold (Pos.compare ma mb); fold (Pos.compare mb mc); fold (Pos.compare ma mc);
    intros H1 H2; compare_cases; simpl in *;
    try congruence; try lia.
Qed.

Lemma SFcompare_irrefl (a : spec_float) : SFcompare a a <> Some Lt.
Proof.
  destruct a as [sa|sa| |sa ma ea]; simpl; try congruence;
    destruct sa; try congruence;
    fold (Pos.compare ma ma); rewrite Z.compare_refl, Pos.compare_refl;
    simpl; congruence.
Qed.

Lemma SFcompare_total (a b : spec_float) :
  a <> S754_nan -> b <> S754_nan ->
  SFcompare a b <> Some Lt -> SFcompare b a <> Some Lt -> SFcompare a b = Some Eq.
Proof.
  destruct a as [sa|sa| |sa ma ea], b as [sb|sb| |sb mb eb]; simpl;
    intros Ha Hb; try congruence;
    try (destruct sa); try (destruct sb); try congruence;
    fold (Pos.compare ma mb); fold (Pos.compare mb ma);
    intros H1 H2; compare_cases; simpl in *;
    try congruence; try lia.
Qed.

Lemma SFcompare_eq_sym (a b : spec_float) :
  SFcompare a b = Some Eq -> SFcompare b a <> Some Lt.
Proof.
  destruct a as [sa|sa| |sa ma ea], b as [sb|sb| |sb mb eb]; simpl;
    try congruence;
    try (destruct sa); try (destruct sb); try congruence;
    fold (Pos.compare ma mb); fold (Pos.compare mb ma);
    intros H1; compare_cases; simpl in *;
    try congruence; try lia.
Qed.

Lemma ltb_Lt (x y : float) :
  (x <? y)%float = true <-> SFcompare (Prim2SF x) (Prim2SF y) = Some Lt.
Proof.
  rewrite ltb_spec. unfold SFltb.
  destruct (SFcompare (Prim2SF x) (Prim2SF y)) as [[| |]|];
    split; congruence.
Qed.

Lemma ltb_not_Lt (x y : float) :
  (x <? y)%float = false <-> SFcompare (Prim2SF x) (Prim2SF y) <> Some Lt.
Proof.
  rewrite <- ltb_Lt. destruct (x <? y)%float; split; congruence.
Qed.

Lemma eqb_Eq (x y : float) :
  (x =? y)%float = true <-> SFcompare (Prim2SF x) (Prim2SF y) = Some Eq.
Proof.
  rewrite eqb_spec. unfold SFeqb.
  destruct (SFcompare (Prim2SF x) (Prim2SF y)) as [[| |]|];
    split; congruence.
Qed.

Lemma not_nan_spec (x : float) : is_nan x = false -> Prim2SF x <> S754_nan.
Proof.
  unfold is_nan. intros H E. apply negb_false_iff in H.
  apply eqb_Eq in H. rewrite E in H. discriminate H.
Qed.

Lemma ltb_irrefl (x : float) : (x <? x)%float = false.
Proof. apply ltb_not_Lt, SFcompare_irrefl. Qed.

Lemma ltb_trans (x y z : float) :
  (x <? y)%float = true -> (y <? z)%float = true -> (x <? z)%float = true.
Proof. rewrite !ltb_Lt. apply SFcompare_lt_trans. Qed.

Lemma ltb_negtrans (x y z : float) :
  is_nan y = false ->
  (x <? y)%float = false -> (y <? z)%float = false -> (x <? z)%float = false.
Proof.
  intros Hy. rewrite !ltb_not_Lt. apply SFcompare_ge_trans.
  apply not_nan_spec. exact Hy.
Qed.

Lemma ltb_not_eqb (x y : float) : (x <? y)%float = true -> (x =? y)%float = false.
Proof.
  rewrite ltb_Lt. intros H. destruct (x =? y)%float eqn:E; [|reflexivity].
  apply eqb_Eq in E. congruence.
Qed.

Lemma eqb_not_ltb (x y : float) :
  (x =? y)%float = true -> (x <? y)%float = false /\ (y <? x)%float = false.
Proof.
  rewrite eqb_Eq, !ltb_not_Lt. intros H. split.
  - congruence.
  - apply SFcompare_eq_sym. exact H.
Qed.

Lemma not_ltb_eqb (x y : float) :
  is_nan x = false -> is_nan y = false ->
  (x <? y)%float = false -> (y <? x)%float = false -> (x =? y)%float = true.
Proof.
  intros Hx Hy. rewrite !ltb_not_Lt, eqb_Eq.
  apply SFcompare_total; apply not_nan_spec; assumption.
Qed.

(** ** The order of the sort keys *)

Lemma key_lt_ltb (a b : ShopTotal) :
  key_lt a b =
  if (missing_count a =? missing_count b)%nat then (total a <? total b)%float
  else (missing_count a <? missing_count b)%nat.
Proof.
  unfold key_lt. destruct (missing_count a =? missing_count b)%nat; [|reflexivity].
  destruct (total a =? total b)%float eqn:E; [|reflexivity].
  symmetry. exact (proj1 (eqb_not_ltb _ _ E)).
Qed.

Ltac nat_cases :=
  repeat match goal with
  | H : context [(?a =? ?b)%nat] |- _ => destruct (Nat.eqb_spec a b)
  | |- context [(?a =? ?b)%nat] => destruct (Nat.eqb_spec a b)
  | H : context [(?a <? ?b)%nat] |- _ => destruct (Nat.ltb_spec a b)
  | |- context [(?a <? ?b)%nat] => destruct (Nat.ltb_spec a b)
  end.

Lemma key_lt_irrefl (a : ShopTotal) : key_lt a a = false.
Proof. rewrite key_lt_ltb, Nat.eqb_refl. apply ltb_irrefl. Qed.

Lemma key_lt_trans (a b c : ShopTotal) :
  key_lt a b = true -> key_lt b c = true -> key_lt a c = true.
Proof.
  rewrite !key_lt_ltb. intros H1 H2. nat_cases;
    try discriminate; try reflexivity; try lia.
  eapply ltb_trans; eassumption.
Qed.

Lemma key_lt_negtrans (a b c : ShopTotal) :
  comparable a -> comparable b -> comparable c ->
  key_lt a b = false -> key_lt b c = false -> key_lt a c = false.
Proof.
  unfold comparable. rewrite !key_lt_ltb. intros _ Hb _ H1 H2. nat_cases;
    try discriminate; try reflexivity; try lia.
  eapply ltb_negtrans; eassumption.
Qed.

Lemma tied_same_key (a b : ShopTotal) :
  comparable a -> comparable b -> tied key_lt a b = same_key a b.
Proof.
  unfold comparable, tied, same_key. rewrite !key_lt_ltb. intros Ha Hb.
  rewrite (Nat.eqb_sym (missing_count b)).
  destruct (Nat.eqb_spec (missing_count a) (missing_count b)) as [E|E]; simpl.
  - destruct (total a =? total b)%float eqn:Et.
    + apply eqb_not_ltb in Et. destruct Et as [-> ->]. reflexivity.
    + destruct (total a <? total b)%float eqn:E1; [reflexivity|].
      destruct (total b <? total a)%float eqn:E2; [reflexivity|].
      rewrite not_ltb_eqb in Et by assumption. discriminate Et.
  - nat_cases; try reflexivity; lia.
Qed.

(** Whatever the totals are, the sort orders the entries by
    [missing_count]. *)
Lemma key_lt_missing (a b : ShopTotal) :
  (key_lt a b = true -> missing_le a b) /\
  (key_lt a b = false -> missing_le b a).
Proof.
  unfold missing_le. rewrite key_lt_ltb.
  split; intros H; nat_cases; try discriminate; lia.
Qed.

Lemma insert_by_key_missing (x : ShopTotal) (l : list ShopTotal) :
  StronglySorted missing_le l ->
  StronglySorted missing_le (insert_by key_lt x l).
Proof.
  induction 1 as [|y l Hs IH Hy]; simpl.
  - repeat constructor.
  - destruct (key_lt x y) eqn:Hxy.
    + apply key_lt_missing in Hxy.
      constructor; [constructor; assumption|].
      constructor; [exact Hxy|].
      rewrite Forall_forall in *. intros z Hz. specialize (Hy z Hz).
      unfold missing_le in *. lia.
    + apply key_lt_missing in Hxy.
      constructor; [exact IH|].
      rewrite Forall_forall in *. intros z Hz.
      apply (Permutation_in _ (insert_by_perm key_lt x l)) in Hz.
      destruct Hz as [<-|Hz]; [exact Hxy | apply Hy; exact Hz].
Qed.

Lemma sort_by_key_missing (l : list ShopTotal) :
  StronglySorted missing_le (sort_by_key l).
Proof.
  unfold sort_by_key, sort_by.
  assert (H : forall acc, StronglySorted missing_le acc ->
                          StronglySorted missing_le
                            (fold_left (fun sorted x => insert_by key_lt x sorted)
                               l acc)).
  { induction l as [|x l IH]; intros acc Hacc; simpl; [exact Hacc|].
    apply IH, insert_by_key_missing, Hacc. }
  apply H. constructor.
Qed.

(** ** The result of [calculate_shop_totals_for_products] *)

Section Results.

Context {L : Library}.

Lemma first_complete_find (l : list ShopTotal) :
  Forall (fun st => 1 <= available_count st) l ->
  first_complete l =
  match find (fun st => (missing_count st =? 0)%nat) l with
  | Some st => (Some (shop st), Some (total st))
  | None => (None, None)
  end.
Proof.
  induction 1 as [|st l Hst Hl IH]; simpl; [reflexivity|].
  assert (Hpos : (0 <? available_count st)%nat = true)
    by (apply Nat.ltb_lt; lia).
  rewrite Hpos, andb_true_r.
  destruct (missing_count st =? 0)%nat; [reflexivity | exact IH].
Qed.

Lemma entries_available (ps : list Product) (shop_list : list string) :
  Forall (fun st => 1 <= available_count st) (entries ps shop_list).
Proof.
  apply Forall_forall. intros st Hst.
  apply in_entries in Hst. destruct Hst as (_ & acc & _ & Hpos & ->).
  simpl. lia.
Qed.

Lemma sorted_Forall (Q : ShopTotal -> Prop) (l : list ShopTotal) :
  Forall Q l -> Forall Q (sort_by_key l).
Proof.
  intros H. rewrite Forall_forall in *. intros st Hst. apply H.
  eapply Permutation_in; [apply sort_by_perm | exact Hst].
Qed.

(** What a normal return of the function is made of. *)
Lemma calculate_Ok (ps : list Product) (shop_list : list string)
    (sts : list ShopTotal) (bs : option string) (bt : option float) :
  calculate_shop_totals_for_products ps shop_list = Ok (sts, bs, bt) ->
  emitted ps shop_list = Ok (entries ps shop_list) /\
  sts = sort_by_key (entries ps shop_list) /\
  (bs, bt) = select_best sts.
Proof.
  unfold calculate_shop_totals_for_products. intros H. bind_inv H.
  pose proof (emitted_entries _ _ _ Ha) as ->.
  split; [exact Ha|].
  pose proof (sorted_Forall _ _ (entries_available ps shop_list)) as Hav.
  rewrite (first_complete_find _ Hav) in H. unfold select_best.
  destruct (find _ (sort_by_key (entries ps shop_list))) as [st|] eqn:E.
  - injection H as <- <- <-. rewrite E. auto.
  - destruct (sort_by_key (entries ps shop_list)) as [|st l] eqn:El;
      injection H as <- <- <-; rewrite E; auto.
Qed.

(** The function returns whenever the loops do. *)
Lemma calculate_returns (ps : list Product) (shop_list : list string)
    (l : list ShopTotal) :
  emitted ps shop_list = Ok l ->
  exists bs bt,
    calculate_shop_totals_for_products ps shop_list
    = Ok (sort_by_key l, bs, bt).
Proof.
  unfold calculate_shop_totals_for_products. intros ->. simpl.
  destruct (first_complete (sort_by_key l)) as [[b|] t].
  - eauto.
  - destruct (sort_by_key l); eauto.
Qed.

Lemma emitted_nil (shop_list : list string) : emitted [] shop_list = Ok [].
Proof.
  unfold emitted. induction shop_list as [|s l IH]; simpl;
    [reflexivity | exact IH].
Qed.

(** C1. The best shop is the first entry of the returned list that misses
    no product; when every entry misses one, it is the first entry of the
    list; when the list is empty, [best_shop] and [best_total] are [None]. *)
Theorem best_shop_selection (ps : list Product) (shop_list : list string)
    (sts : list ShopTotal) (bs : option string) (bt : option float) :
  calculate_shop_totals_for_products ps shop_list = Ok (sts, bs, bt) ->
  (forall st, find (fun st => (missing_count st =? 0)%nat) sts = Some st ->
              bs = Some (shop st) /\ bt = Some (total st)) /\
  (find (fun st => (missing_count st =? 0)%nat) sts = None ->
   forall st, hd_error sts = Some st ->
              bs = Some (shop st) /\ bt = Some (total st)) /\
  (sts = [] -> bs = None /\ bt = None).
Proof.
  intros H. apply calculate_Ok in H. destruct H as (_ & _ & Hbest).
  unfold select_best in Hbest. split; [|split].
  - intros st Hfind. rewrite Hfind in Hbest.
    injection Hbest as -> ->. split; reflexivity.
  - intros Hnone st Hhd. rewrite Hnone in Hbest.
    destruct sts as [|st0 sts']; [discriminate Hhd|].
    simpl in Hhd. injection Hhd as ->.
    injection Hbest as -> ->. split; reflexivity.
  - intros ->. simpl in Hbest. injection Hbest as -> ->. split; reflexivity.
Qed.


(** C3. Every entry of the result counts an available product; a shop whose
    loop counts none has no entry; and without products the result is
    empty, with no best shop. *)
Theorem no_entry_without_available_product (ps : list Product)
    (shop_list : list string) (sts : list ShopTotal) (bs : option string)
    (bt : option float) :
  calculate_shop_totals_for_products ps shop_list = Ok (sts, bs, bt) ->
  Forall (fun st => 1 <= available_count st) sts /\
  (forall s acc,
      for_each (loop_body s) ps acc_init = Ok acc ->
      acc_available_count acc = 0 ->
      ~ In s (map shop sts)) /\
  calculate_shop_totals_for_products [] shop_list = Ok ([], None, None).
Proof.
  intros H. apply calculate_Ok in H. destruct H as (_ & Hsts & _).
  assert (Hperm : Permutation sts (entries ps shop_list))
    by (subst sts; apply sort_by_perm).
  split; [|split].
  - subst sts. apply sorted_Forall, entries_available.
  - intros s acc Hloop Hzero Hin. apply in_map_iff in Hin.
    destruct Hin as (st & <- & Hst).
    apply (Permutation_in _ Hperm) in Hst. apply in_entries in Hst.
    destruct Hst as (_ & acc' & Hloop' & Hpos & _).
    rewrite Hloop in Hloop'. injection Hloop' as <-. lia.
  - unfold calculate_shop_totals_for_products.
    rewrite emitted_nil. reflexivity.
Qed.

Lemma record_missing (os : list (ProductInShop * option float)) (acc : ShopAcc) :
  acc_missing_count (fold_left record os acc)
  = acc_missing_count acc + length (filter is_missing os).
Proof.
  revert acc. induction os as [|o os IH]; intros acc; simpl.
  - lia.
  - rewrite IH. unfold record, is_missing. destruct (snd o); simpl; lia.
Qed.

Lemma Forall2_nth {A B : Type} (R : A -> B -> Prop) (l : list A) (l' : list B) :
  Forall2 R l l' ->
  forall i a, nth_error l i = Some a ->
              exists b, nth_error l' i = Some b /\ R a b.
Proof.
  induction 1 as [|x y l l' Hxy Hl IH]; intros i a Hi.
  - destruct i; discriminate Hi.
  - destruct i as [|i]; simpl in *.
    + injection Hi as <-. eauto.
    + apply IH. exact Hi.
Qed.

(** An entry of the result is the record of the outcomes of the products at
    its shop. *)
Lemma entry_outcomes (ps : list Product) (shop_list : list string)
    (sts : list ShopTotal) (bs : option string) (bt : option float)
    (st : ShopTotal) :
  calculate_shop_totals_for_products ps shop_list = Ok (sts, bs, bt) ->
  In st sts ->
  exists os,
    outcomes (shop st) ps = Ok os /\
    st = shop_total_of (shop st) (fold_left record os acc_init).
Proof.
  intros H Hst. apply calculate_Ok in H. destruct H as (_ & -> & _).
  apply (Permutation_in _ (sort_by_perm key_lt _)) in Hst.
  apply in_entries in Hst. destruct Hst as (_ & acc & Hloop & _ & Hshape).
  rewrite for_each_loop_body in Hloop. bind_inv Hloop.
  injection Hloop as <-. eauto.
Qed.

Lemma sum_of_zeros (xs : list float) :
  Forall (fun x => x = 0%float) xs -> sum_prices xs = 0%float.
Proof.
  unfold sum_prices. induction 1 as [|x xs -> _ IH]; simpl;
    [reflexivity | exact IH].
Qed.



(** ** Offers of the documented shape raise nothing *)

Lemma assoc_In (k : string) (d : list (string * pyval)) (v : pyval) :
  assoc k d = Some v -> In (k, v) d.
Proof.
  induction d as [|[k' v'] d IH]; simpl; [discriminate|].
  destruct (String.eqb_spec k' k) as [->|_].
  - intros [= ->]. left. reflexivity.
  - intros H. right. apply IH. exact H.
Qed.

Lemma typed_get (d : list (string * pyval)) (k : string) :
  forallb (fun kv => typed_offer (snd kv)) d = true ->
  exists v, py_get (PDict d) k PNone = Ok v /\ typed_offer v = true.
Proof.
  intros Hd. simpl. destruct (assoc k d) as [v|] eqn:E.
  - exists v. split; [reflexivity|].
    rewrite forallb_forall in Hd. apply (Hd (k, v)).
    apply assoc_In. exact E.
  - exists PNone. split; reflexivity.
Qed.

Lemma typed_find_shop_data (shop0 : string) (p : Product) :
  typed_product p = true ->
  exists sd, find_shop_data shop0 p = Ok sd /\ typed_offer sd = true.
Proof.
  unfold typed_product, find_shop_data. intros Hp.
  assert (Hd : exists d, match prod_shops p with
                         | Some v => v
                         | None => PDict []
                         end = PDict d
                         /\ forallb (fun kv => typed_offer (snd kv)) d = true).
  { destruct (prod_shops p) as [[]|]; try discriminate Hp; eauto. }
  destruct Hd as (d & -> & Hd).
  destruct (typed_get d shop0 Hd) as (a & -> & Ha). cbn [bind].
  destruct (truthy a); [eauto|].
  destruct (typed_get d (replace "-" "_" shop0) Hd) as (b & -> & Hb).
  cbn [bind]. destruct (truthy b); [eauto|].
  apply typed_get. exact Hd.
Qed.

Lemma typed_outcome {HL : Lawful L} (shop0 : string) (p : Product) :
  typed_product p = true -> exists o, outcome shop0 p = Ok o.
Proof.
  intros Hp. unfold outcome.
  destruct (typed_find_shop_data shop0 p Hp) as (sd & -> & Hsd). cbn [bind].
  destruct sd as [| | | | | |d]; try discriminate Hsd; [simpl; eauto|].
  unfold priced. destruct (truthy (PDict d)); [|simpl; eauto].
  simpl in Hsd. apply andb_true_iff in Hsd. destruct Hsd as [Hsd Him].
  apply andb_true_iff in Hsd. destruct Hsd as [Hpr Hfl].
  assert (Hflag : exists b, py_get (PDict d) "available" (PBool true)
                            = Ok (PBool b)).
  { simpl. destruct (assoc "available" d) as [[]|];
      try discriminate Hfl; eauto. }
  assert (Himage : exists im v,
             py_get (PDict d) "images" (PList []) = Ok im /\
             (if truthy im then py_first im else Ok PNone) = Ok v /\
             (v = PNone \/ exists s, v = PStr s)).
  { simpl. destruct (assoc "images" d) as [[| | | | |[|[] l]|]|];
      try discriminate Him; simpl;
      do 2 eexists; (split; [reflexivity|]); (split; [reflexivity|]); eauto. }
  destruct Hflag as (b & Hflag). destruct Himage as (im & v & Him1 & Him2 & Hv).
  assert (Hentry : forall x, exists e,
             new_ProductInShop (prod_sku p) (prod_title p) v x (PBool b) = Ok e).
  { intros x. unfold new_ProductInShop. rewrite as_bool_PBool.
    destruct Hv as [->|(s & ->)].
    - rewrite as_optional_str_PNone. eauto.
    - rewrite as_optional_str_PStr. eauto. }
  assert (Hrest : forall x, exists o,
             (available0 <- py_get (PDict d) "available" (PBool true) ;;
              images <- py_get (PDict d) "images" (PList []) ;;
              image0 <- (if truthy images then py_first images else Ok PNone) ;;
              entry <- new_ProductInShop (prod_sku p) (prod_title p)
                         image0 x available0 ;;
              Ok (entry, if truthy available0 then Some x else None)) = Ok o).
  { intros x. rewrite Hflag. cbn [bind]. rewrite Him1. cbn [bind].
    rewrite Him2. cbn [bind]. destruct (Hentry x) as (e & ->). simpl. eauto. }
  simpl py_get. destruct (assoc "price" d) as [[| |n|x| | |]|];
    try discriminate Hpr; cbn [bind is_None py_float];
    [eauto | | apply Hrest | eauto].
  simpl in Hpr. destruct (float_of_int n) as [x|]; [|discriminate Hpr].
  cbn [bind]. apply Hrest.
Qed.

Lemma typed_outcomes {HL : Lawful L} (shop0 : string) (ps : list Product) :
  forallb typed_product ps = true -> exists os, outcomes shop0 ps = Ok os.
Proof.
  induction ps as [|p ps IH]; simpl; intros H; [eauto|].
  apply andb_true_iff in H. destruct H as [Hp Hps].
  destruct (typed_outcome shop0 p Hp) as (o & ->).
  destruct (IH Hps) as (os & ->). simpl. eauto.
Qed.

(** Well-typed offers: the function returns. *)
Lemma typed_returns {HL : Lawful L} (ps : list Product) (shop_list : list string) :
  forallb typed_product ps = true ->
  exists r, calculate_shop_totals_for_products ps shop_list = Ok r.
Proof.
  intros Hps.
  assert (Hem : forall l0, exists l,
             for_each (shop_body ps) shop_list l0 = Ok l).
  { induction shop_list as [|s shop_list IH]; intros l0; simpl; [eauto|].
    unfold shop_body at 1. rewrite for_each_loop_body.
    destruct (typed_outcomes s ps Hps) as (os & ->). cbn [bind].
    destruct (0 <? _)%nat; simpl; apply IH. }
  destruct (Hem []) as (l & Hl).
  destruct (calculate_returns ps shop_list l Hl) as (bs & bt & ->). eauto.
Qed.

(** ** One turn of the loop, offer by offer *)

(** The turn of the loop for a product with a priced offer. *)
Lemma loop_body_priced (shop0 : string) (acc acc' : ShopAcc) (p : Product)
    (sd raw : pyval) :
  find_shop_data shop0 p = Ok sd ->
  priced sd = Ok (Some raw) ->
  loop_body shop0 acc p = Ok acc' ->
  exists x a im i e,
    py_float raw = Ok x /\
    py_get sd "available" (PBool true) = Ok a /\
    py_get sd "images" (PList []) = Ok im /\
    (if truthy im then py_first im else Ok PNone) = Ok i /\
    new_ProductInShop (prod_sku p) (prod_title p) i x a = Ok e /\
    acc' = record acc (e, if truthy a then Some x else None).
Proof.
  intros Hfind Hpriced H. rewrite loop_body_outcome in H. bind_inv H.
  injection H as <-. unfold outcome in Ha.
  rewrite Hfind in Ha. cbn [bind] in Ha. rewrite Hpriced in Ha.
  cbn [bind] in Ha. do 5 bind_inv Ha. injection Ha as <-.
  do 5 eexists. repeat (split; [eassumption|]). reflexivity.
Qed.

Lemma new_ProductInShop_fields (s t : string) (i a : pyval) (x : float)
    (e : ProductInShop) :
  new_ProductInShop s t i x a = Ok e ->
  sku e = s /\ title e = t /\ price e = Some x /\
  as_optional_str i = Some (image e) /\ as_bool a = Some (available e).
Proof.
  unfold new_ProductInShop.
  destruct (as_optional_str i), (as_bool a); try discriminate.
  intros [= <-]. simpl. auto.
Qed.

(** C6. For an offer with a price and a boolean [available] flag, the
    record of the product keeps the price and the flag; with the flag
    [False] the product counts as missing and the total is unchanged, with
    the flag [True] the price is added to the total and the product counts
    as available.  And a turn of the loop that counts a product available
    has found an offer with a price and a flag that holds. *)
Theorem unavailable_offer_counts_missing {HL : Lawful L} (shop0 : string)
    (acc acc' : ShopAcc) (p : Product) (sd raw : pyval) (b : bool) :
  find_shop_data shop0 p = Ok sd ->
  priced sd = Ok (Some raw) ->
  py_get sd "available" (PBool true) = Ok (PBool b) ->
  loop_body shop0 acc p = Ok acc' ->
  (exists x e,
      py_float raw = Ok x /\
      acc_products_in_shop acc' = acc_products_in_shop acc ++ [e] /\
      sku e = prod_sku p /\ title e = prod_title p /\
      price e = Some x /\ available e = b /\
      if b then
        acc_total acc' = (acc_total acc + x)%float /\
        acc_available_count acc' = S (acc_available_count acc) /\
        acc_missing_count acc' = acc_missing_count acc
      else
        acc_total acc' = acc_total acc /\
        acc_available_count acc' = acc_available_count acc /\
        acc_missing_count acc' = S (acc_missing_count acc)) /\
  (forall shop1 acc1 acc1' p1,
      loop_body shop1 acc1 p1 = Ok acc1' ->
      acc_available_count acc1' <> acc_available_count acc1 \/
      acc_total acc1' <> acc_total acc1 ->
      exists sd1 raw1 a1,
        find_shop_data shop1 p1 = Ok sd1 /\
        priced sd1 = Ok (Some raw1) /\
        py_get sd1 "available" (PBool true) = Ok a1 /\
        truthy a1 = true).
Proof.
  intros Hfind Hpriced Hflag H. split.
  - destruct (loop_body_priced _ _ _ _ _ _ Hfind Hpriced H)
      as (x & a & im & i & e & Hx & Ha & _ & _ & He & ->).
    rewrite Hflag in Ha. injection Ha as <-.
    apply new_ProductInShop_fields in He.
    destruct He as (Hs & Ht & Hp & _ & Hb).
    rewrite as_bool_PBool in Hb. injection Hb as Hb.
    exists x, e. split; [exact Hx|].
    unfold record. simpl truthy. destruct b; simpl; auto 10.
  - intros shop1 acc1 acc1' p1 H1 Hchange.
    pose proof H1 as H2. rewrite loop_body_outcome in H2. bind_inv H2.
    injection H2 as <-. unfold outcome in Ha. bind_inv Ha. bind_inv Ha.
    destruct a1 as [raw1|].
    + destruct (loop_body_priced _ _ _ _ _ _ Ha0 Ha1 H1)
        as (x & a' & im & i & e & _ & Hget & _ & _ & _ & Hacc).
      exists a0, raw1, a'. repeat (split; [assumption|]).
      destruct (truthy a') eqn:E; [reflexivity|].
      apply (f_equal acc_available_count) in Hacc as Hc.
      apply (f_equal acc_total) in Hacc as Ht.
      unfold record in Hc, Ht. simpl in Hc, Ht. rewrite Hacc in Hchange.
      unfold record in Hchange. simpl in Hchange.
      destruct Hchange as [Hn|Hn]; exfalso; apply Hn; reflexivity.
    + injection Ha as <-. unfold record in Hchange. simpl in Hchange.
      destruct Hchange as [Hn|Hn]; exfalso; apply Hn; reflexivity.
Qed.

(** C10. An offer with a price and no [available] key counts as available:
    the price is added to the total, [available_count] grows by one, and
    the record of the product says [available = True]. *)
Theorem absent_flag_counts_available {HL : Lawful L} (shop0 : string)
    (acc acc' : ShopAcc) (p : Product) (d : list (string * pyval))
    (raw : pyval) :
  find_shop_data shop0 p = Ok (PDict d) ->
  assoc "price" d = Some raw ->
  raw <> PNone ->
  assoc "available" d = None ->
  loop_body shop0 acc p = Ok acc' ->
  exists x e,
    py_float raw = Ok x /\
    sku e = prod_sku p /\ title e = prod_title p /\
    price e = Some x /\ available e = true /\
    acc_products_in_shop acc' = acc_products_in_shop acc ++ [e] /\
    acc_total acc' = (acc_total acc + x)%float /\
    acc_available_count acc' = S (acc_available_count acc) /\
    acc_missing_count acc' = acc_missing_count acc.
Proof.
  intros Hfind Hprice Hraw Hflag H.
  assert (Hpriced : priced (PDict d) = Ok (Some raw)).
  { unfold priced. simpl. destruct d as [|kv d']; [discriminate Hprice|].
    rewrite Hprice. cbn [bind]. destruct raw; try reflexivity.
    contradiction Hraw. reflexivity. }
  destruct (loop_body_priced _ _ _ _ _ _ Hfind Hpriced H)
    as (x & a & im & i & e & Hx & Ha & _ & _ & He & ->).
  simpl in Ha. rewrite Hflag in Ha. injection Ha as <-.
  apply new_ProductInShop_fields in He.
  destruct He as (Hs & Ht & Hp & _ & Hb).
  rewrite as_bool_PBool in Hb. injection Hb as Hb.
  exists x, e. unfold record. simpl. auto 10.
Qed.

(** ** Prices and shop names *)

Lemma outcome_raises_loop_body (shop0 : string) (p : Product) (e : exn) :
  outcome shop0 p = Raise e -> forall acc, loop_body shop0 acc p = Raise e.
Proof. intros H acc. rewrite loop_body_outcome, H. reflexivity. Qed.

(** C4, as the code has it.  The price of an offer is whatever [float()]
    makes of it, and is not checked: a price that converts, negative or
    not, is recorded, and added to the total when the flag holds; a price
    that [float()] rejects (a string that is no number, a list, a dict)
    makes the function raise; only a price that is absent or [None] is no
    price. *)
Theorem price_is_converted_not_checked (ps : list Product)
    (shop_list : list string) (shop0 : string) (p : Product) (sd raw : pyval) :
  In shop0 shop_list -> In p ps ->
  find_shop_data shop0 p = Ok sd ->
  priced sd = Ok (Some raw) ->
  (forall e, py_float raw = Raise e ->
             exists e', calculate_shop_totals_for_products ps shop_list
                        = Raise e') /\
  (forall acc acc', loop_body shop0 acc p = Ok acc' ->
      exists x a e,
        py_float raw = Ok x /\
        py_get sd "available" (PBool true) = Ok a /\
        acc_products_in_shop acc' = acc_products_in_shop acc ++ [e] /\
        price e = Some x /\
        (truthy a = true ->
         acc_total acc' = (acc_total acc + x)%float /\
         acc_available_count acc' = S (acc_available_count acc) /\
         acc_missing_count acc' = acc_missing_count acc)) /\
  (forall x, py_float (PFloat x) = Ok x) /\
  (forall s, float_of_str s = None -> py_float (PStr s) = Raise ValueError) /\
  (forall l, py_float (PList l) = Raise TypeError) /\
  (forall d, py_float (PDict d) = Raise TypeError).
Proof.
  intros Hshop Hp Hfind Hpriced. split; [|split].
  - intros e He.
    assert (Hout : outcome shop0 p = Raise e).
    { unfold outcome. rewrite Hfind. cbn [bind]. rewrite Hpriced.
      cbn [bind]. rewrite He. reflexivity. }
    assert (Hloop : exists e1,
               for_each (loop_body shop0) ps acc_init = Raise e1).
    { apply (for_each_raises _ _ p Hp). intros acc. exists e.
      apply outcome_raises_loop_body. exact Hout. }
    destruct Hloop as (e1 & Hloop).
    assert (Hall : exists e2,
               for_each (shop_body ps) shop_list [] = Raise e2).
    { apply (for_each_raises _ _ shop0 Hshop). intros l0. exists e1.
      unfold shop_body. rewrite Hloop. reflexivity. }
    destruct Hall as (e2 & Hall). exists e2.
    unfold calculate_shop_totals_for_products, emitted. rewrite Hall.
    reflexivity.
  - intros acc acc' H.
    destruct (loop_body_priced _ _ _ _ _ _ Hfind Hpriced H)
      as (x & a & im & i & e & Hx & Ha & _ & _ & He & ->).
    apply new_ProductInShop_fields in He. destruct He as (_ & _ & Hpr & _).
    exists x, a, e. split; [exact Hx|]. split; [exact Ha|].
    unfold record. destruct (truthy a); simpl.
    + split; [reflexivity|]. split; [exact Hpr|]. auto.
    + split; [reflexivity|]. split; [exact Hpr|]. discriminate.
  - repeat split; try reflexivity.
    intros s Hs. simpl. rewrite Hs. reflexivity.
Qed.

Lemma find_shop_data_dict (shop0 : string) (p : Product)
    (d : list (string * pyval)) :
  prod_shops p = Some (PDict d) ->
  find_shop_data shop0 p =
  Ok (if truthy (get_or_None d shop0) then get_or_None d shop0
      else if truthy (get_or_None d (replace "-" "_" shop0))
           then get_or_None d (replace "-" "_" shop0)
           else get_or_None d (replace "_" "-" shop0)).
Proof.
  intros Hd. unfold find_shop_data, get_or_None. rewrite Hd. simpl.
  destruct (assoc shop0 d) as [a|]; cbn [bind].
  - destruct (truthy a); [reflexivity|].
    destruct (assoc (replace "-" "_" shop0) d) as [b|]; cbn [bind].
    + destruct (truthy b); [reflexivity|].
      destruct (assoc (replace "_" "-" shop0) d); reflexivity.
    + simpl. destruct (assoc (replace "_" "-" shop0) d); reflexivity.
  - simpl.
    destruct (assoc (replace "-" "_" shop0) d) as [b|]; cbn [bind].
    + destruct (truthy b); [reflexivity|].
      destruct (assoc (replace "_" "-" shop0) d); reflexivity.
    + simpl. destruct (assoc (replace "_" "-" shop0) d); reflexivity.
Qed.

(** C5, as the code has it.  The offer of a shop is the first of three
    lookups whose value holds in [if]: under the shop's name, under the name
    with every hyphen replaced by an underscore, under the name with every
    underscore replaced by a hyphen; a key that holds an empty or null value
    does not end the search.  So a non-empty offer stored under
    ["pharma_shop"] alone is the offer of the shop ["pharma-shop"]. *)
Theorem shop_data_is_first_truthy (shop0 : string) (p : Product)
    (d : list (string * pyval)) :
  prod_shops p = Some (PDict d) ->
  (forall v, assoc shop0 d = Some v -> truthy v = true ->
             find_shop_data shop0 p = Ok v) /\
  (forall v, truthy (get_or_None d shop0) = false ->
             assoc (replace "-" "_" shop0) d = Some v -> truthy v = true ->
             find_shop_data shop0 p = Ok v) /\
  (truthy (get_or_None d shop0) = false ->
   truthy (get_or_None d (replace "-" "_" shop0)) = false ->
   find_shop_data shop0 p = Ok (get_or_None d (replace "_" "-" shop0))) /\
  (forall q offer,
      prod_shops q = Some (PDict [("pharma_shop", offer)]) ->
      truthy offer = true ->
      find_shop_data "pharma-shop" q = Ok offer).
Proof.
  intros Hd. rewrite (find_shop_data_dict shop0 p d Hd).
  split; [|split; [|split]].
  - intros v Hv Ht. unfold get_or_None at 1 2. rewrite Hv, Ht. reflexivity.
  - intros v H1 Hv Ht. rewrite H1. unfold get_or_None at 1 2.
    rewrite Hv, Ht. reflexivity.
  - intros H1 H2. rewrite H1, H2. reflexivity.
  - intros q offer Hq Ht. rewrite (find_shop_data_dict _ q _ Hq).
    unfold get_or_None. simpl. rewrite Ht. reflexivity.
Qed.

(** ** The response of the endpoint *)


End Results.

(** ** More on the ranking *)

Section RankingMore.

Context {L : Library}.

Lemma for_each_shop_body_returns (ps : list Product) (shop_list : list string) :
  (forall s, In s shop_list ->
             exists acc, for_each (loop_body s) ps acc_init = Ok acc) ->
  forall l0, for_each (shop_body ps) shop_list l0
             = Ok (l0 ++ entries ps shop_list).
Proof.
  induction shop_list as [|s shop_list IH]; intros Hall l0; simpl.
  - rewrite app_nil_r. reflexivity.
  - destruct (Hall s (or_introl eq_refl)) as (acc & Hacc).
    unfold shop_body at 1, entries. cbn [flat_map]. rewrite Hacc. cbn [bind].
    destruct (0 <? acc_available_count acc)%nat; cbn [bind]; rewrite IH;
      try (intros s' Hs'; apply Hall; right; exact Hs').
    + rewrite <- app_assoc. reflexivity.
    + reflexivity.
Qed.

Lemma emitted_loops_return (ps : list Product) (shop_list : list string)
    (l : list ShopTotal) :
  emitted ps shop_list = Ok l ->
  forall s, In s shop_list ->
            exists acc, for_each (loop_body s) ps acc_init = Ok acc.
Proof.
  unfold emitted. generalize (@nil ShopTotal) as l0. revert l.
  induction shop_list as [|s0 shop_list IH]; intros l l0 H s Hs;
    [contradiction|].
  simpl in H. bind_inv H. destruct Hs as [<-|Hs].
  - unfold shop_body in Ha. bind_inv Ha. eauto.
  - eapply IH; eassumption.
Qed.

Lemma entries_filter_sells (ps : list Product) (shop_list : list string) :
  entries ps (filter (sells ps) shop_list) = entries ps shop_list.
Proof.
  induction shop_list as [|s shop_list IH]; [reflexivity|].
  simpl filter. unfold sells at 1.
  destruct (for_each (loop_body s) ps acc_init) as [acc|e] eqn:E.
  - destruct (0 <? acc_available_count acc)%nat eqn:Hpos.
    + unfold entries in *. cbn [flat_map]. rewrite IH. reflexivity.
    + unfold entries in *. cbn [flat_map]. rewrite E, Hpos, IH. reflexivity.
  - unfold entries in *. cbn [flat_map]. rewrite E, IH. reflexivity.
Qed.

Lemma find_complete_after (st : ShopTotal) (l : list ShopTotal) :
  StronglySorted missing_le (st :: l) ->
  missing_count st <> 0 ->
  find (fun st => (missing_count st =? 0)%nat) l = None.
Proof.
  intros Hs Hst. inversion Hs as [|? ? _ Hall]; subst.
  induction l as [|y l IH]; [reflexivity|].
  inversion Hall as [|? ? Hy Hl]; subst. simpl.
  unfold missing_le in Hy.
  destruct (Nat.eqb_spec (missing_count y) 0) as [E|_]; [lia|].
  apply IH; [|exact Hl].
  constructor; [|exact Hl].
  inversion Hs as [|? ? Hs' _]; subst. inversion Hs'; subst. assumption.
Qed.

Lemma select_best_head (sts : list ShopTotal) :
  StronglySorted missing_le sts ->
  select_best sts =
  match sts with
  | st :: _ => (Some (shop st), Some (total st))
  | [] => (None, None)
  end.
Proof.
  intros Hs. destruct sts as [|st l]; [reflexivity|].
  unfold select_best. simpl.
  destruct (Nat.eqb_spec (missing_count st) 0) as [E|E]; [reflexivity|].
  rewrite (find_complete_after st l Hs E). reflexivity.
Qed.

(** X1. The best shop is always the first entry of the returned list: the
    sort puts an entry that misses nothing, when there is one, at the head,
    so the search of lines 124-128 and the fallback of lines 131-133 pick
    the same entry. *)
Theorem best_shop_is_first_entry (ps : list Product) (shop_list : list string)
    (sts : list ShopTotal) (bs : option string) (bt : option float) :
  calculate_shop_totals_for_products ps shop_list = Ok (sts, bs, bt) ->
  (bs, bt) =
  match sts with
  | st :: _ => (Some (shop st), Some (total st))
  | [] => (None, None)
  end.
Proof.
  intros H. apply calculate_Ok in H. destruct H as (_ & Hsts & Hbest).
  rewrite Hbest. apply select_best_head. subst sts.
  apply sort_by_key_missing.
Qed.

(** X2. No entry beats the best shop: none misses fewer products, and, the
    totals being numbers, none that misses as many has a lower total. *)
Theorem best_shop_is_optimal (ps : list Product) (shop_list : list string)
    (sts : list ShopTotal) (bs : option string) (bt : option float) :
  calculate_shop_totals_for_products ps shop_list = Ok (sts, bs, bt) ->
  sts <> [] ->
  exists best,
    In best sts /\ bs = Some (shop best) /\ bt = Some (total best) /\
    (forall st, In st sts -> missing_count best <= missing_count st) /\
    (Forall comparable sts ->
     forall st, In st sts -> missing_count st = missing_count best ->
                (total st <? total best)%float = false).
Proof.
  intros H Hne. apply calculate_Ok in H. destruct H as (_ & Hsts & Hbest).
  assert (Hm : StronglySorted missing_le sts)
    by (subst sts; apply sort_by_key_missing).
  rewrite (select_best_head sts Hm) in Hbest.
  destruct sts as [|best rest] eqn:Ests; [contradiction Hne; reflexivity|].
  injection Hbest as -> ->.
  exists best. split; [left; reflexivity|]. split; [reflexivity|].
  split; [reflexivity|]. split.
  - intros st [<-|Hst]; [lia|].
    inversion Hm as [|? ? _ Hall]; subst. rewrite Forall_forall in Hall.
    apply Hall. exact Hst.
  - intros Hcmp st Hst Hsame.
    destruct Hst as [<-|Hst]; [apply ltb_irrefl|].
    assert (Hcmp' : Forall comparable (entries ps shop_list)).
    { rewrite Forall_forall in *. intros x Hx. apply Hcmp.
      rewrite Hsts.
      eapply Permutation_in; [apply Permutation_sym, sort_by_perm|exact Hx]. }
    assert (Hs : StronglySorted (not_after key_lt) (best :: rest)).
    { rewrite Hsts.
      apply (sort_by_sorted key_lt comparable key_lt_irrefl key_lt_trans).
      exact Hcmp'. }
    inversion Hs as [|? ? _ Hall]; subst. rewrite Forall_forall in Hall.
    specialize (Hall st Hst). unfold not_after in Hall.
    rewrite key_lt_ltb, Hsame, Nat.eqb_refl in Hall. exact Hall.
Qed.

(** X3. The shops of [shop_list] that get no entry do not matter: without
    them the function returns the same result. *)
Theorem shops_without_entry_do_not_matter (ps : list Product)
    (shop_list : list string)
    (r : list ShopTotal * option string * option float) :
  calculate_shop_totals_for_products ps shop_list = Ok r ->
  calculate_shop_totals_for_products ps (filter (sells ps) shop_list) = Ok r.
Proof.
  intros H. rewrite <- H. destruct r as [[sts bs] bt].
  apply calculate_Ok in H. destruct H as (Hem & _ & _).
  assert (Hem' : emitted ps (filter (sells ps) shop_list)
                 = Ok (entries ps shop_list)).
  { unfold emitted. rewrite for_each_shop_body_returns.
    - rewrite entries_filter_sells. reflexivity.
    - intros s Hs. apply filter_In in Hs. destruct Hs as [Hs _].
      eapply emitted_loops_return; eassumption. }
  unfold calculate_shop_totals_for_products. rewrite Hem, Hem'. reflexivity.
Qed.

(** X4. Every entry is the entry of a shop of [shop_list], there are no
    more entries than shops, and a shop that is listed once has at most one
    entry. *)
Theorem entries_are_shops_of_the_list (ps : list Product)
    (shop_list : list string) (sts : list ShopTotal) (bs : option string)
    (bt : option float) :
  calculate_shop_totals_for_products ps shop_list = Ok (sts, bs, bt) ->
  (forall st, In st sts -> In (shop st) shop_list) /\
  length sts <= length shop_list /\
  (NoDup shop_list -> NoDup (map shop sts)).
Proof.
  intros H. apply calculate_Ok in H. destruct H as (_ & Hsts & _).
  assert (Hperm : Permutation (map shop sts) (filter (sells ps) shop_list)).
  { rewrite <- entries_shops. apply Permutation_map. subst sts.
    apply sort_by_perm. }
  split; [|split].
  - intros st Hst.
    assert (Hin : In (shop st) (filter (sells ps) shop_list)).
    { eapply Permutation_in; [exact Hperm|]. apply in_map. exact Hst. }
    apply filter_In in Hin. tauto.
  - rewrite <- (length_map shop), (Permutation_length Hperm).
    apply filter_length_le.
  - intros Hnd. eapply Permutation_NoDup; [apply Permutation_sym, Hperm|].
    apply NoDup_filter. exact Hnd.
Qed.

(** With a validation of [bool] that agrees with [if], the outcome of a
    product and the flag of its record say the same. *)
Lemma outcome_flag (shop0 : string) (p : Product)
    (o : ProductInShop * option float) :
  (forall v b, as_bool v = Some b -> truthy v = b) ->
  outcome shop0 p = Ok o ->
  match snd o with
  | Some x => available (fst o) = true /\ price (fst o) = Some x
  | None => available (fst o) = false
  end.
Proof.
  intros Hagree H. unfold outcome in H. bind_inv H. bind_inv H.
  destruct a0 as [raw|].
  - do 5 bind_inv H. injection H as <-. simpl.
    match goal with
    | Hn : new_ProductInShop _ _ _ _ _ = Ok ?e |- _ =>
        apply new_ProductInShop_fields in Hn;
        destruct Hn as (_ & _ & Hp & _ & Hb); apply Hagree in Hb;
        rewrite Hb; destruct (available e); auto
    end.
  - injection H as <-. reflexivity.
Qed.

Lemma flags_of_outcomes (os : list (ProductInShop * option float)) :
  Forall (fun o => match snd o with
                   | Some x => available (fst o) = true /\ price (fst o) = Some x
                   | None => available (fst o) = false
                   end) os ->
  added_prices os = flagged_prices (map fst os) /\
  length (added_prices os) = length (filter available (map fst os)) /\
  length (filter is_missing os)
  = length (filter (fun e => negb (available e)) (map fst os)) /\
  Forall (fun e => available e = true -> price e <> None) (map fst os).
Proof.
  unfold added_prices, flagged_prices.
  induction 1 as [|o os Ho _ IH]; simpl; [auto|].
  destruct IH as (IH1 & IH2 & IH3 & IH4). unfold is_missing at 1.
  destruct (snd o) as [x|].
  - destruct Ho as [Ha Hp]. rewrite Ha, Hp. simpl.
    split; [rewrite IH1; reflexivity|]. split; [rewrite IH2; reflexivity|].
    split; [exact IH3|]. constructor; [|exact IH4].
    intros _. congruence.
  - rewrite Ho. simpl.
    split; [exact IH1|]. split; [exact IH2|].
    split; [rewrite IH3; reflexivity|]. constructor; [|exact IH4].
    rewrite Ho. discriminate.
Qed.


Lemma replace_no_separator (s : string) :
  no_separator s = true ->
  replace "-" "_" s = s /\ replace "_" "-" s = s.
Proof.
  induction s as [|c s IH]; simpl; [auto|].
  intros H. apply andb_true_iff in H. destruct H as [H Hs].
  apply andb_true_iff in H. destruct H as [H1 H2].
  apply negb_true_iff in H1, H2. rewrite H1, H2.
  destruct (IH Hs) as [-> ->]. auto.
Qed.

(** X7. For a shop whose name holds neither a hyphen nor an underscore (all
    of [RETAIL_SHOPS], and two of [PARA_SHOPS]) the variants are the name
    itself: the offer is what the dict holds under the name, and an offer
    stored under another spelling is not found. *)
Theorem plain_lookup_without_separator (shop0 : string) (p : Product)
    (d : list (string * pyval)) :
  no_separator shop0 = true ->
  prod_shops p = Some (PDict d) ->
  find_shop_data shop0 p = Ok (get_or_None d shop0) /\
  (assoc shop0 d = None -> find_shop_data shop0 p = Ok PNone).
Proof.
  intros Hno Hd. rewrite (find_shop_data_dict shop0 p d Hd).
  destruct (replace_no_separator shop0 Hno) as [-> ->].
  assert (E : (if truthy (get_or_None d shop0) then get_or_None d shop0
               else if truthy (get_or_None d shop0) then get_or_None d shop0
                    else get_or_None d shop0) = get_or_None d shop0)
    by (destruct (truthy (get_or_None d shop0)); reflexivity).
  rewrite E. split; [reflexivity|].
  intros Habs. unfold get_or_None. rewrite Habs. reflexivity.
Qed.

Lemma outcome_raises (ps : list Product) (shop_list : list string)
    (s : string) (p : Product) (e : exn) :
  In s shop_list -> In p ps -> outcome s p = Raise e ->
  exists e', calculate_shop_totals_for_products ps shop_list = Raise e'.
Proof.
  intros Hs Hp Hout.
  assert (Hloop : exists e1, for_each (loop_body s) ps acc_init = Raise e1).
  { apply (for_each_raises _ _ p Hp). intros acc. exists e.
    apply outcome_raises_loop_body. exact Hout. }
  destruct Hloop as (e1 & Hloop).
  assert (Hall : exists e2, for_each (shop_body ps) shop_list [] = Raise e2).
  { apply (for_each_raises _ _ s Hs). intros l0. exists e1.
    unfold shop_body. rewrite Hloop. reflexivity. }
  destruct Hall as (e2 & Hall). exists e2.
  unfold calculate_shop_totals_for_products, emitted. rewrite Hall.
  reflexivity.
Qed.

(** X6. Offer data of the wrong kind is not skipped: a product whose
    ["shops"] value is not a dict (a null, a list), or whose offer at a shop
    of the list holds in [if] without being a dict (a bare price), makes the
    turn of the loop raise [AttributeError], and the function raise. *)
Theorem malformed_offer_data_raises (ps : list Product)
    (shop_list : list string) (s : string) (p : Product) :
  In s shop_list -> In p ps ->
  (exists v, prod_shops p = Some v /\ is_dict v = false) \/
  (exists sd, find_shop_data s p = Ok sd /\
              truthy sd = true /\ is_dict sd = false) ->
  (forall acc, loop_body s acc p = Raise AttributeError) /\
  exists e, calculate_shop_totals_for_products ps shop_list = Raise e.
Proof.
  intros Hs Hp Hbad.
  assert (Hout : outcome s p = Raise AttributeError).
  { unfold outcome. destruct Hbad as [(v & Hv & Hnd)|(sd & Hsd & Ht & Hnd)].
    - unfold find_shop_data. rewrite Hv.
      destruct v; try discriminate Hnd; reflexivity.
    - rewrite Hsd. cbn [bind]. unfold priced. rewrite Ht.
      destruct sd; try discriminate Hnd; reflexivity. }
  split.
  - intros acc. apply outcome_raises_loop_body. exact Hout.
  - eapply outcome_raises; eassumption.
Qed.

(** The order of the products does not change what each of them gets. *)
Lemma outcomes_Permutation (shop0 : string) (ps ps' : list Product) :
  Permutation ps ps' ->
  forall os, outcomes shop0 ps = Ok os ->
             exists os', outcomes shop0 ps' = Ok os' /\ Permutation os os'.
Proof.
  induction 1 as [|p l l' _ IH|p q l|l l' l'' _ IH1 _ IH2]; intros os Hos.
  - simpl in Hos. injection Hos as <-. exists []. split; [reflexivity|].
    constructor.
  - simpl in Hos. bind_inv Hos. bind_inv Hos. injection Hos as <-.
    destruct (IH _ Ha0) as (os' & Hos' & Hperm).
    exists (a :: os'). simpl. rewrite Ha, Hos'. simpl.
    split; [reflexivity | constructor; exact Hperm].
  - simpl in Hos. bind_inv Hos. bind_inv Hos. bind_inv Ha0. bind_inv Ha0.
    injection Ha0 as <-. injection Hos as <-.
    exists (a1 :: a :: a2). simpl. rewrite Ha1, Ha, Ha2. simpl.
    split; [reflexivity | apply perm_swap].
  - destruct (IH1 _ Hos) as (os' & Hos' & Hp1).
    destruct (IH2 _ Hos') as (os'' & Hos'' & Hp2).
    exists os''. split; [exact Hos''|].
    eapply Permutation_trans; eassumption.
Qed.

Lemma added_prices_Permutation (os os' : list (ProductInShop * option float)) :
  Permutation os os' -> length (added_prices os) = length (added_prices os').
Proof.
  intros H. apply Permutation_length. unfold added_prices.
  apply Permutation_flat_map. exact H.
Qed.

Lemma entries_counts_Permutation (ps ps' : list Product)
    (shop_list : list string) :
  Permutation ps ps' ->
  (forall s, In s shop_list ->
             exists acc, for_each (loop_body s) ps acc_init = Ok acc) ->
  (forall s, In s shop_list ->
             exists acc, for_each (loop_body s) ps' acc_init = Ok acc) /\
  map counts_of (entries ps' shop_list) = map counts_of (entries ps shop_list).
Proof.
  intros Hperm. induction shop_list as [|s shop_list IH]; intros Hall.
  - split; [intros s []|reflexivity].
  - destruct IH as [IH1 IH2];
      [intros s' Hs'; apply Hall; right; exact Hs'|].
    destruct (Hall s (or_introl eq_refl)) as (acc & Hacc).
    pose proof Hacc as Hos. rewrite for_each_loop_body in Hos. bind_inv Hos.
    injection Hos as <-. rename a into os.
    destruct (outcomes_Permutation s ps ps' Hperm os Ha) as (os' & Hos' & Hp).
    assert (Hacc' : for_each (loop_body s) ps' acc_init
                    = Ok (fold_left record os' acc_init))
      by (rewrite for_each_loop_body, Hos'; reflexivity).
    assert (Hav : acc_available_count (fold_left record os' acc_init)
                  = acc_available_count (fold_left record os acc_init))
      by (rewrite !record_available;
          rewrite (added_prices_Permutation _ _ Hp); reflexivity).
    assert (Hmi : acc_missing_count (fold_left record os' acc_init)
                  = acc_missing_count (fold_left record os acc_init)).
    { pose proof (record_counts os acc_init) as H1.
      pose proof (record_counts os' acc_init) as H2.
      rewrite <- (Permutation_length Hp) in H2. lia. }
    split.
    + intros s' [<-|Hs']; [eauto | apply IH1; exact Hs'].
    + unfold entries in *. cbn [flat_map]. rewrite !map_app, IH2.
      rewrite Hacc, Hacc', Hav.
      destruct (0 <? _)%nat; [|reflexivity].
      unfold counts_of, shop_total_of. simpl. rewrite Hav, Hmi. reflexivity.
Qed.

(** X8. The order of the products in the bag changes neither which shops
    get an entry nor the counts of an entry: with the products in another
    order the function returns as well, and the shops with their
    [available_count] and [missing_count] are the same up to the order of
    the entries.  (The totals are sums of floats and can differ.) *)
Theorem counts_do_not_depend_on_product_order (ps ps' : list Product)
    (shop_list : list string) (sts : list ShopTotal) (bs : option string)
    (bt : option float) :
  calculate_shop_totals_for_products ps shop_list = Ok (sts, bs, bt) ->
  Permutation ps ps' ->
  exists sts' bs' bt',
    calculate_shop_totals_for_products ps' shop_list = Ok (sts', bs', bt') /\
    Permutation (map counts_of sts) (map counts_of sts').
Proof.
  intros H Hperm. apply calculate_Ok in H. destruct H as (Hem & Hsts & _).
  destruct (entries_counts_Permutation ps ps' shop_list Hperm
              (emitted_loops_return _ _ _ Hem)) as [Hall Hcounts].
  assert (Hem' : emitted ps' shop_list = Ok (entries ps' shop_list))
    by (unfold emitted; rewrite for_each_shop_body_returns; auto).
  destruct (calculate_returns _ _ _ Hem') as (bs' & bt' & Hcalc).
  exists (sort_by_key (entries ps' shop_list)), bs', bt'.
  split; [exact Hcalc|]. subst sts.
  eapply Permutation_trans; [apply Permutation_map, sort_by_perm|].
  rewrite <- Hcounts. apply Permutation_map, Permutation_sym, sort_by_perm.
Qed.

End RankingMore.

(** ** The route *)

Section RouteFacts.

Context {L : Library} {oid : Type} {D : Database oid}.

Lemma fold_split_body (items : list BagItem) (a b : list oid) :
  fold_left split_body items (a, b)
  = (a ++ ids_where is_para items,
     b ++ ids_where (fun item => negb (is_para item)) items).
Proof.
  revert a b. induction items as [|item items IH]; intros a b; simpl.
  - rewrite !app_nil_r. reflexivity.
  - unfold split_body at 2. unfold is_para at 1 3.
    destruct (ObjectId (item_sku item)) as [o|];
      destruct (item_source item =? "para")%string; simpl;
      rewrite IH; rewrite <- ?app_assoc; reflexivity.
Qed.

Lemma ids_where_length (items : list BagItem) :
  length (ids_where is_para items)
  + length (ids_where (fun item => negb (is_para item)) items)
  = length (filter well_formed items).
Proof.
  unfold ids_where, well_formed.
  induction items as [|item items IH]; simpl; [reflexivity|].
  rewrite !length_app.
  destruct (is_para item), (ObjectId (item_sku item)); simpl; lia.
Qed.

Lemma ids_where_well_formed (keep : BagItem -> bool) (items : list BagItem) :
  ids_where keep (filter well_formed items) = ids_where keep items.
Proof.
  unfold ids_where. induction items as [|item items IH]; simpl;
    [reflexivity|].
  unfold well_formed at 1.
  destruct (ObjectId (item_sku item)) as [o|] eqn:E; simpl.
  - rewrite E, IH. reflexivity.
  - rewrite IH. destruct (keep item); reflexivity.
Qed.

(** X9. The loop over the items puts the identifier of an item of source
    ["para"] in [para_ids] and that of an item of any other source in
    [retail_ids], each list in the order of the request and with its
    repetitions; an item whose identifier [ObjectId] rejects is in neither,
    so the two lists hold as many identifiers as there are well-formed
    items. *)
Theorem items_are_split_by_source (items : list BagItem) :
  split_ids items
  = (ids_where is_para items,
     ids_where (fun item => negb (is_para item)) items) /\
  length (fst (split_ids items)) + length (snd (split_ids items))
  = length (filter well_formed items).
Proof.
  assert (E : split_ids items
              = (ids_where is_para items,
                 ids_where (fun item => negb (is_para item)) items))
    by (unfold split_ids; rewrite fold_split_body; reflexivity).
  split; [exact E|]. rewrite E. simpl. apply ids_where_length.
Qed.

Lemma split_ids_well_formed (items : list BagItem) :
  split_ids (filter well_formed items) = split_ids items.
Proof.
  unfold split_ids. rewrite !fold_split_body, !ids_where_well_formed.
  reflexivity.
Qed.

Lemma ids_where_nil (keep : BagItem -> bool) (items : list BagItem) :
  filter well_formed items = [] -> ids_where keep items = [].
Proof.
  intros H. rewrite <- ids_where_well_formed, H. reflexivity.
Qed.


(** What a response of [calculate_best_shop] is made of. *)
Lemma calculate_best_shop_Ok (pp rp : list Product) (resp : BestShopResponse) :
  calculate_best_shop pp rp = Ok resp ->
  (para_result resp = None <-> pp = []) /\
  (retail_result resp = None <-> rp = []) /\
  (forall cr, para_result resp = Some cr ->
              category cr = "para" /\ category_label cr = "Parapharmacie" /\
              result_products cr = map sku_title pp) /\
  (forall cr, retail_result resp = Some cr ->
              category cr = "retail" /\ category_label cr = "Électronique" /\
              result_products cr = map sku_title rp).
Proof.
  unfold calculate_best_shop. intros H. bind_inv H. bind_inv H.
  injection H as <-. simpl.
  assert (Hcat : forall ps shops0 cat label (o : option CategoryResult),
             match ps with
             | [] => Ok None
             | _ :: _ =>
                 r0 <- calculate_shop_totals_for_products ps shops0 ;;
                 (let '(shop_totals0, best_shop0, best_total0) := r0 in
                  Ok (Some {| category := cat;
                              category_label := label;
                              best_shop := best_shop0;
                              best_total := best_total0;
                              shop_totals := shop_totals0;
                              result_products := map sku_title ps |}))
             end = Ok o ->
             (o = None <-> ps = []) /\
             (forall cr, o = Some cr ->
                         category cr = cat /\ category_label cr = label /\
                         result_products cr = map sku_title ps)).
  { intros ps shops0 cat label o Ho. destruct ps as [|x ps].
    - injection Ho as <-. split; [tauto|]. discriminate.
    - bind_inv Ho. destruct a1 as [[sts bs] bt]. injection Ho as <-.
      split; [split; discriminate|].
      intros cr [= <-]. simpl. auto. }
  destruct (Hcat _ _ _ _ _ Ha) as [H1 H2].
  destruct (Hcat _ _ _ _ _ Ha0) as [H3 H4]. auto.
Qed.

Lemma fetch_nil (find : list oid -> list (Doc oid)) (ids : list oid) :
  fetch find ids = [] <-> ids = [] \/ find ids = [].
Proof.
  unfold fetch. destruct ids as [|o ids].
  - split; auto.
  - split.
    + intros H. right. apply map_eq_nil in H. exact H.
    + intros [H|H]; [discriminate H|]. rewrite H. reflexivity.
Qed.

Lemma fetch_products (find : list oid -> list (Doc oid)) (ids : list oid) :
  fetch find ids <> [] ->
  map sku_title (fetch find ids)
  = map (fun d => sku_title (product_of_doc d)) (find ids).
Proof.
  unfold fetch. destruct ids as [|o ids]; [intros H; contradiction H; reflexivity|].
  intros _. rewrite map_map. reflexivity.
Qed.

(** X11. In a response, a category has no result exactly when none of its
    identifiers was well formed or the catalogue returned no document for
    them; otherwise its result lists the documents the catalogue returned,
    in the catalogue's order (not the request's), each with its identifier
    as a string and its title, or ["Unknown"] without one. *)
Theorem category_absent_iff_no_document (items : list BagItem)
    (r : BestShopResponse) :
  post_best_shop items = Reply r ->
  (para_result r = None <->
   fst (split_ids items) = [] \/ find_para (fst (split_ids items)) = []) /\
  (retail_result r = None <->
   snd (split_ids items) = [] \/ find_retail (snd (split_ids items)) = []) /\
  (forall cr, para_result r = Some cr ->
              category cr = "para" /\ category_label cr = "Parapharmacie" /\
              result_products cr
              = map (fun d => sku_title (product_of_doc d))
                  (find_para (fst (split_ids items)))) /\
  (forall cr, retail_result r = Some cr ->
              category cr = "retail" /\ category_label cr = "Électronique" /\
              result_products cr
              = map (fun d => sku_title (product_of_doc d))
                  (find_retail (snd (split_ids items)))).
Proof.
  unfold post_best_shop. destruct items as [|item items]; [discriminate|].
  destruct (split_ids (item :: items)) as [para_ids retail_ids]. simpl fst.
  simpl snd.
  destruct (calculate_best_shop (fetch find_para para_ids)
              (fetch find_retail retail_ids)) as [resp|e] eqn:E;
    [|discriminate].
  intros [= <-]. apply calculate_best_shop_Ok in E.
  destruct E as (H1 & H2 & H3 & H4).
  split; [rewrite H1; apply fetch_nil|].
  split; [rewrite H2; apply fetch_nil|].
  split.
  - intros cr Hcr. destruct (H3 cr Hcr) as (Hc & Hl & Hp).
    split; [exact Hc|]. split; [exact Hl|]. rewrite Hp.
    apply fetch_products. intros Hnil. apply H1 in Hnil. congruence.
  - intros cr Hcr. destruct (H4 cr Hcr) as (Hc & Hl & Hp).
    split; [exact Hc|]. split; [exact Hl|]. rewrite Hp.
    apply fetch_products. intros Hnil. apply H2 in Hnil. congruence.
Qed.

Lemma calculate_best_shop_returns {HL : Lawful L} (pp rp : list Product) :
  forallb typed_product pp = true -> forallb typed_product rp = true ->
  exists resp, calculate_best_shop pp rp = Ok resp.
Proof.
  intros Hp Hr. unfold calculate_best_shop.
  destruct pp as [|p pp]; destruct rp as [|q rp].
  - simpl. eauto.
  - destruct (typed_returns (q :: rp) RETAIL_SHOPS Hr) as ([[sts bs] bt] & E).
    cbn [bind]. rewrite E. simpl. eauto.
  - destruct (typed_returns (p :: pp) PARA_SHOPS Hp) as ([[sts bs] bt] & E).
    rewrite E. simpl. eauto.
  - destruct (typed_returns (p :: pp) PARA_SHOPS Hp) as ([[sts bs] bt] & E).
    destruct (typed_returns (q :: rp) RETAIL_SHOPS Hr)
      as ([[sts' bs'] bt'] & E').
    rewrite E. cbn [bind]. rewrite E'. simpl. eauto.
Qed.

Lemma fetch_typed (find : list oid -> list (Doc oid)) (ids : list oid) :
  forallb typed_doc (find ids) = true ->
  forallb typed_product (fetch find ids) = true.
Proof.
  unfold fetch. destruct ids as [|o ids]; [reflexivity|].
  intros H. rewrite forallb_forall in *. intros p Hp.
  apply in_map_iff in Hp. destruct Hp as (d & <- & Hd). apply (H d Hd).
Qed.


Lemma non_dict_shops_raise (ps : list Product) (shop_list : list string)
    (p : Product) (v : pyval) :
  In p ps -> shop_list <> [] ->
  prod_shops p = Some v -> is_dict v = false ->
  exists e, calculate_shop_totals_for_products ps shop_list = Raise e.
Proof.
  intros Hp Hne Hv Hnd. destruct shop_list as [|s shop_list];
    [contradiction Hne; reflexivity|].
  apply (outcome_raises ps (s :: shop_list) s p AttributeError);
    [left; reflexivity | exact Hp |].
  unfold outcome, find_shop_data. rewrite Hv.
  destruct v; try discriminate Hnd; reflexivity.
Qed.

(** X13. A document whose ["shops"] value is not a dict (a null, say) fails
    every request that fetches it: the exception of the ranking escapes the
    route, whatever the other items and the other category are. *)
Theorem bad_document_fails_the_request (items : list BagItem) (d : Doc oid)
    (v : pyval) :
  (fst (split_ids items) <> [] /\ In d (find_para (fst (split_ids items)))) \/
  (snd (split_ids items) <> [] /\ In d (find_retail (snd (split_ids items)))) ->
  doc_shops d = Some v -> is_dict v = false ->
  exists e, post_best_shop items = Failed e.
Proof.
  intros Hin Hv Hnd.
  assert (Hne : items <> []).
  { intros ->. destruct Hin as [[H _]|[H _]]; apply H; reflexivity. }
  unfold post_best_shop. destruct items as [|item items];
    [contradiction Hne; reflexivity|].
  destruct (split_ids (item :: items)) as [para_ids retail_ids].
  simpl fst in Hin. simpl snd in Hin.
  assert (Hbad : prod_shops (product_of_doc d) = Some v)
    by (unfold product_of_doc; simpl; rewrite Hv; reflexivity).
  assert (Hfetch : forall find ids, ids <> [] -> In d (find ids) ->
                                    In (product_of_doc d) (fetch find ids)).
  { intros find ids Hids Hd. unfold fetch. destruct ids as [|o ids];
      [contradiction Hids; reflexivity|]. apply in_map. exact Hd. }
  assert (Hraise : exists e,
             calculate_best_shop (fetch find_para para_ids)
               (fetch find_retail retail_ids) = Raise e).
  { unfold calculate_best_shop. destruct Hin as [[Hids Hd]|[Hids Hd]].
    - pose proof (Hfetch find_para para_ids Hids Hd) as Hp.
      destruct (fetch find_para para_ids) as [|q pp] eqn:E;
        [contradiction Hp|].
      destruct (non_dict_shops_raise (q :: pp) PARA_SHOPS _ v Hp)
        as (e & ->); try assumption; [discriminate|].
      simpl. eauto.
    - pose proof (Hfetch find_retail retail_ids Hids Hd) as Hp.
      destruct (fetch find_retail retail_ids) as [|q rp] eqn:E;
        [contradiction Hp|].
      destruct (non_dict_shops_raise (q :: rp) RETAIL_SHOPS _ v Hp)
        as (e & He); try assumption; [discriminate|].
      rewrite He.
      destruct (match fetch find_para para_ids with
                | [] => Ok None
                | _ :: _ => _
                end) as [para|e']; simpl; eauto. }
  destruct Hraise as (e & ->). eauto.
Qed.

End RouteFacts.

(** ** Examples *)

Lemma strict_lawful : Lawful strict.
Proof. split; reflexivity. Qed.

Section Examples.

#[local] Existing Instance strict.
#[local] Existing Instance strict_lawful.

Example bag_result :
  calculate_shop_totals_for_products bag bag_shops
  = Ok (bag_totals, Some "Y", Some 12%float).
Proof. vm_compute. reflexivity. Qed.

Example bag_totals_comparable : Forall comparable bag_totals.
Proof. repeat constructor. Qed.

(** Scenarios 1 and 2 of the specification. *)
Example scenario_1 :
  calculate_shop_totals_for_products
    [{| prod_sku := "p1"; prod_title := "";
        prod_shops :=
          Some (PDict
            [("X", PDict [("price", PInt 10); ("available", PBool true)]);
             ("Y", PDict [("price", PInt 8); ("available", PBool true)])]) |}]
    ["X"; "Y"]
  = Ok ([{| shop := "Y"; total := 8%float;
            products := [{| sku := "p1"; title := ""; image := None;
                            price := Some 8%float; available := true |}];
            available_count := 1; missing_count := 0 |};
         {| shop := "X"; total := 10%float;
            products := [{| sku := "p1"; title := ""; image := None;
                            price := Some 10%float; available := true |}];
            available_count := 1; missing_count := 0 |}],
        Some "Y", Some 8%float).
Proof. vm_compute. reflexivity. Qed.

Example scenario_2 :
  match
    calculate_shop_totals_for_products
      [{| prod_sku := "p1"; prod_title := "";
          prod_shops :=
            Some (PDict
              [("X", PDict [("price", PInt 10); ("available", PBool true)])]) |};
       {| prod_sku := "p2"; prod_title := "";
          prod_shops :=
            Some (PDict
              [("Y", PDict [("price", PInt 5); ("available", PBool true)])]) |}]
      ["X"; "Y"]
  with
  | Ok (sts, bs, bt) =>
      map (fun st => (shop st, total st, missing_count st)) sts
      = [("Y", 5%float, 1); ("X", 10%float, 1)]
      /\ bs = Some "Y" /\ bt = Some 5%float
  | Raise _ => False
  end.
Proof. vm_compute. auto. Qed.

(** Two shops with the same key stay in the order of [shop_list]. *)
Example equal_keys_keep_shop_order :
  match
    calculate_shop_totals_for_products
      [{| prod_sku := "p1"; prod_title := "";
          prod_shops :=
            Some (PDict [("B", PDict [("price", PInt 7)]);
                         ("A", PDict [("price", PFloat 7)]);
                         ("C", PDict [("price", PInt 6)])]) |}]
      ["B"; "A"; "C"]
  with
  | Ok (sts, bs, bt) => map shop sts = ["C"; "B"; "A"] /\ bs = Some "C"
  | Raise _ => False
  end.
Proof. vm_compute. auto. Qed.

(** Scenario 4 of the specification. *)
Example pharma_shop_variant :
  find_shop_data "pharma-shop"
    {| prod_sku := "p6"; prod_title := "Gel";
       prod_shops := Some (PDict [("pharma_shop", variant_offer)]) |}
  = Ok variant_offer.
Proof. reflexivity. Qed.

Lemma best_shop_selection_witness :
  calculate_shop_totals_for_products bag bag_shops
  = Ok (bag_totals, Some "Y", Some 12%float) /\
  ((forall st,
       find (fun st => (missing_count st =? 0)%nat) bag_totals = Some st ->
       Some "Y" = Some (shop st) /\ Some 12%float = Some (total st)) /\
   (find (fun st => (missing_count st =? 0)%nat) bag_totals = None ->
    forall st, hd_error bag_totals = Some st ->
               Some "Y" = Some (shop st) /\ Some 12%float = Some (total st)) /\
   (bag_totals = [] -> Some "Y" = None /\ Some 12%float = None)).
Proof.
  split; [exact bag_result|].
  apply (best_shop_selection bag bag_shops). exact bag_result.
Defined.


Lemma no_entry_without_available_product_witness :
  calculate_shop_totals_for_products bag bag_shops
  = Ok (bag_totals, Some "Y", Some 12%float) /\
  (Forall (fun st => 1 <= available_count st) bag_totals /\
   (forall s acc,
       for_each (loop_body s) bag acc_init = Ok acc ->
       acc_available_count acc = 0 ->
       ~ In s (map shop bag_totals)) /\
   calculate_shop_totals_for_products [] bag_shops = Ok ([], None, None)).
Proof.
  split; [exact bag_result|].
  apply (no_entry_without_available_product bag bag_shops bag_totals
           (Some "Y") (Some 12%float)).
  exact bag_result.
Defined.

(** The negative price is added to the total and the product counts as
    available; the price that is no number makes the function raise. *)
Lemma negative_price_is_counted :
  calculate_shop_totals_for_products [refund] ["X"]
  = Ok ([{| shop := "X"; total := (-5)%float; products := [refund_X];
            available_count := 1; missing_count := 0 |}],
        Some "X", Some (-5)%float) /\
  calculate_shop_totals_for_products [unpriced] ["X"] = Raise ValueError.
Proof. split; vm_compute; reflexivity. Qed.

(** The key ["pharma-shop"] is present, with an empty offer, and the offer
    used is the one under ["pharma_shop"]: the shop gets an entry. *)
Lemma empty_offer_is_skipped :
  first_present "pharma-shop" two_keys = Some (PDict []) /\
  find_shop_data "pharma-shop" cream = Ok variant_offer /\
  calculate_shop_totals_for_products [cream] ["pharma-shop"]
  = Ok ([{| shop := "pharma-shop"; total := 5%float;
            products := [{| sku := "p5"; title := "Cream"; image := None;
                            price := Some 5%float; available := true |}];
            available_count := 1; missing_count := 0 |}],
        Some "pharma-shop", Some 5%float).
Proof. repeat split; vm_compute; reflexivity. Qed.

Lemma price_is_converted_not_checked_witness :
  In "X" ["X"] /\ In refund [refund] /\
  find_shop_data "X" refund = Ok refund_offer /\
  priced refund_offer = Ok (Some (PInt (-5))) /\
  ((forall e, py_float (PInt (-5)) = Raise e ->
              exists e', calculate_shop_totals_for_products [refund] ["X"]
                         = Raise e') /\
   (forall acc acc', loop_body "X" acc refund = Ok acc' ->
       exists x a e,
         py_float (PInt (-5)) = Ok x /\
         py_get refund_offer "available" (PBool true) = Ok a /\
         acc_products_in_shop acc' = acc_products_in_shop acc ++ [e] /\
         price e = Some x /\
         (truthy a = true ->
          acc_total acc' = (acc_total acc + x)%float /\
          acc_available_count acc' = S (acc_available_count acc) /\
          acc_missing_count acc' = acc_missing_count acc)) /\
   (forall x, py_float (PFloat x) = Ok x) /\
   (forall s, float_of_str s = None -> py_float (PStr s) = Raise ValueError) /\
   (forall l, py_float (PList l) = Raise TypeError) /\
   (forall d, py_float (PDict d) = Raise TypeError)).
Proof.
  split; [simpl; auto|]. split; [simpl; auto|].
  split; [reflexivity|]. split; [reflexivity|].
  apply (price_is_converted_not_checked [refund] ["X"] "X" refund
           refund_offer (PInt (-5))); simpl; auto.
Defined.

Lemma shop_data_is_first_truthy_witness :
  prod_shops cream = Some (PDict two_keys) /\
  ((forall v, assoc "pharma-shop" two_keys = Some v -> truthy v = true ->
              find_shop_data "pharma-shop" cream = Ok v) /\
   (forall v, truthy (get_or_None two_keys "pharma-shop") = false ->
              assoc (replace "-" "_" "pharma-shop") two_keys = Some v ->
              truthy v = true ->
              find_shop_data "pharma-shop" cream = Ok v) /\
   (truthy (get_or_None two_keys "pharma-shop") = false ->
    truthy (get_or_None two_keys (replace "-" "_" "pharma-shop")) = false ->
    find_shop_data "pharma-shop" cream
    = Ok (get_or_None two_keys (replace "_" "-" "pharma-shop"))) /\
   (forall q offer,
       prod_shops q = Some (PDict [("pharma_shop", offer)]) ->
       truthy offer = true ->
       find_shop_data "pharma-shop" q = Ok offer)).
Proof.
  split; [reflexivity|].
  apply (shop_data_is_first_truthy "pharma-shop" cream two_keys).
  reflexivity.
Defined.

Lemma unavailable_offer_counts_missing_witness :
  find_shop_data "X" balm = Ok balm_at_X /\
  priced balm_at_X = Ok (Some (PFloat 5.5)) /\
  py_get balm_at_X "available" (PBool true) = Ok (PBool false) /\
  loop_body "X" acc_init balm = Ok after_balm_at_X /\
  ((exists x e,
       py_float (PFloat 5.5) = Ok x /\
       acc_products_in_shop after_balm_at_X
       = acc_products_in_shop acc_init ++ [e] /\
       sku e = prod_sku balm /\ title e = prod_title balm /\
       price e = Some x /\ available e = false /\
       (acc_total after_balm_at_X = acc_total acc_init /\
        acc_available_count after_balm_at_X = acc_available_count acc_init /\
        acc_missing_count after_balm_at_X = S (acc_missing_count acc_init))) /\
   (forall shop1 acc1 acc1' p1,
       loop_body shop1 acc1 p1 = Ok acc1' ->
       acc_available_count acc1' <> acc_available_count acc1 \/
       acc_total acc1' <> acc_total acc1 ->
       exists sd1 raw1 a1,
         find_shop_data shop1 p1 = Ok sd1 /\
         priced sd1 = Ok (Some raw1) /\
         py_get sd1 "available" (PBool true) = Ok a1 /\
         truthy a1 = true)).
Proof.
  split; [reflexivity|]. split; [reflexivity|]. split; [reflexivity|].
  split; [reflexivity|].
  apply (unavailable_offer_counts_missing "X" acc_init after_balm_at_X balm
           balm_at_X (PFloat 5.5) false); reflexivity.
Defined.

Lemma absent_flag_counts_available_witness :
  find_shop_data "Y" balm = Ok (PDict balm_at_Y) /\
  assoc "price" balm_at_Y = Some (PInt 4) /\
  PInt 4 <> PNone /\
  assoc "available" balm_at_Y = None /\
  loop_body "Y" acc_init balm = Ok after_balm_at_Y /\
  (exists x e,
      py_float (PInt 4) = Ok x /\
      sku e = prod_sku balm /\ title e = prod_title balm /\
      price e = Some x /\ available e = true /\
      acc_products_in_shop after_balm_at_Y
      = acc_products_in_shop acc_init ++ [e] /\
      acc_total after_balm_at_Y = (acc_total acc_init + x)%float /\
      acc_available_count after_balm_at_Y = S (acc_available_count acc_init) /\
      acc_missing_count after_balm_at_Y = acc_missing_count acc_init).
Proof.
  split; [reflexivity|]. split; [reflexivity|]. split; [discriminate|].
  split; [reflexivity|]. split; [vm_compute; reflexivity|].
  apply (absent_flag_counts_available "Y" acc_init after_balm_at_Y balm
           balm_at_Y (PInt 4)); try reflexivity; discriminate.
Defined.



(** The bag as the products of the first category, none in the second:
    no shop of the category sells them, and the category still has a
    result. *)
Example category_without_entries :
  calculate_best_shop bag []
  = Ok {| para_result :=
            Some {| category := "para"; category_label := "Parapharmacie";
                    best_shop := None; best_total := None;
                    shop_totals := [];
                    result_products := [("p1", "Soap"); ("p2", "Balm")] |};
          retail_result := None |}.
Proof. vm_compute. reflexivity. Qed.


End Examples.

(** ** Examples of the further properties *)

Lemma strict_agrees :
  forall v b, as_bool (Library := strict) v = Some b -> truthy v = b.
Proof.
  intros v flag H. destruct v; try discriminate H.
  injection H as <-. reflexivity.
Qed.

Lemma shelf_typed (catalogue : list (Doc string)) (ids : list string) :
  forallb (typed_doc (D := shelf)) catalogue = true ->
  forallb (typed_doc (D := shelf)) (find_in catalogue ids) = true.
Proof.
  intros H. rewrite forallb_forall in *. intros d Hd.
  apply filter_In in Hd. apply H. tauto.
Qed.

Section MoreExamples.

#[local] Existing Instance strict.
#[local] Existing Instance strict_lawful.
#[local] Existing Instance shelf.

(** The request of four well-formed items and one malformed item: the soap
    asked with the source ["Para"] is looked up in the retail catalogue,
    which does not have it. *)
Example request_reply : post_best_shop request = Reply request_response.
Proof. vm_compute. reflexivity. Qed.

(** The total depends on the order of the products: adding 1 twice to 1e16
    is lost, adding 1e16 to 2 is not. *)
Example total_depends_on_product_order :
  let priced_at x :=
    {| prod_sku := "p"; prod_title := "";
       prod_shops := Some (PDict [("X", PDict [("price", PFloat x)])]) |} in
  match
    calculate_shop_totals_for_products
      [priced_at 1e16; priced_at 1; priced_at 1]%float ["X"],
    calculate_shop_totals_for_products
      [priced_at 1; priced_at 1; priced_at 1e16]%float ["X"]
  with
  | Ok (_, _, bt), Ok (_, _, bt') =>
      bt = Some 1e16%float /\ bt' = Some 10000000000000002%float
  | _, _ => False
  end.
Proof. vm_compute. auto. Qed.

Lemma best_shop_is_first_entry_witness :
  calculate_shop_totals_for_products bag bag_shops
  = Ok (bag_totals, Some "Y", Some 12%float) /\
  (Some "Y", Some 12%float) =
  match bag_totals with
  | st :: _ => (Some (shop st), Some (total st))
  | [] => (None, None)
  end.
Proof.
  split; [exact bag_result|].
  apply (best_shop_is_first_entry bag bag_shops). exact bag_result.
Defined.

Lemma best_shop_is_optimal_witness :
  calculate_shop_totals_for_products bag bag_shops
  = Ok (bag_totals, Some "Y", Some 12%float) /\
  bag_totals <> [] /\
  exists best,
    In best bag_totals /\ Some "Y" = Some (shop best) /\
    Some 12%float = Some (total best) /\
    (forall st, In st bag_totals -> missing_count best <= missing_count st) /\
    (Forall comparable bag_totals ->
     forall st, In st bag_totals -> missing_count st = missing_count best ->
                (total st <? total best)%float = false).
Proof.
  split; [exact bag_result|]. split; [discriminate|].
  apply (best_shop_is_optimal bag bag_shops); [exact bag_result|discriminate].
Defined.

Lemma shops_without_entry_do_not_matter_witness :
  calculate_shop_totals_for_products bag bag_shops
  = Ok (bag_totals, Some "Y", Some 12%float) /\
  calculate_shop_totals_for_products bag (filter (sells bag) bag_shops)
  = Ok (bag_totals, Some "Y", Some 12%float).
Proof.
  split; [exact bag_result|].
  apply (shops_without_entry_do_not_matter bag bag_shops). exact bag_result.
Defined.

Lemma entries_are_shops_of_the_list_witness :
  calculate_shop_totals_for_products bag bag_shops
  = Ok (bag_totals, Some "Y", Some 12%float) /\
  ((forall st, In st bag_totals -> In (shop st) bag_shops) /\
   length bag_totals <= length bag_shops /\
   (NoDup bag_shops -> NoDup (map shop bag_totals))).
Proof.
  split; [exact bag_result|].
  apply (entries_are_shops_of_the_list bag bag_shops bag_totals (Some "Y")
           (Some 12%float)).
  exact bag_result.
Defined.


Lemma malformed_offer_data_raises_witness :
  In "X" ["X"] /\ In shopless [shopless] /\
  ((exists v, prod_shops shopless = Some v /\ is_dict v = false) \/
   (exists sd, find_shop_data "X" shopless = Ok sd /\
               truthy sd = true /\ is_dict sd = false)) /\
  ((forall acc, loop_body "X" acc shopless = Raise AttributeError) /\
   exists e, calculate_shop_totals_for_products [shopless] ["X"] = Raise e).
Proof.
  assert (Hbad : (exists v, prod_shops shopless = Some v /\ is_dict v = false) \/
                 (exists sd, find_shop_data "X" shopless = Ok sd /\
                             truthy sd = true /\ is_dict sd = false))
    by (left; exists PNone; split; reflexivity).
  split; [simpl; auto|]. split; [simpl; auto|]. split; [exact Hbad|].
  apply (malformed_offer_data_raises [shopless] ["X"] "X" shopless);
    simpl; auto.
Defined.

Lemma plain_lookup_without_separator_witness :
  no_separator "parashop" = true /\
  prod_shops cream = Some (PDict two_keys) /\
  (find_shop_data "parashop" cream = Ok (get_or_None two_keys "parashop") /\
   (assoc "parashop" two_keys = None ->
    find_shop_data "parashop" cream = Ok PNone)).
Proof.
  split; [reflexivity|]. split; [reflexivity|].
  apply (plain_lookup_without_separator "parashop" cream two_keys);
    reflexivity.
Defined.

Lemma counts_do_not_depend_on_product_order_witness :
  calculate_shop_totals_for_products bag bag_shops
  = Ok (bag_totals, Some "Y", Some 12%float) /\
  Permutation bag [balm; soap] /\
  exists sts' bs' bt',
    calculate_shop_totals_for_products [balm; soap] bag_shops
    = Ok (sts', bs', bt') /\
    Permutation (map counts_of bag_totals) (map counts_of sts').
Proof.
  split; [exact bag_result|]. split; [apply perm_swap|].
  apply (counts_do_not_depend_on_product_order bag [balm; soap] bag_shops
           bag_totals (Some "Y") (Some 12%float));
    [exact bag_result | apply perm_swap].
Defined.

Lemma category_absent_iff_no_document_witness :
  post_best_shop request = Reply request_response /\
  ((para_result request_response = None <->
    fst (split_ids request) = [] \/ find_para (fst (split_ids request)) = []) /\
   (retail_result request_response = None <->
    snd (split_ids request) = []
    \/ find_retail (snd (split_ids request)) = []) /\
   (forall cr, para_result request_response = Some cr ->
               category cr = "para" /\ category_label cr = "Parapharmacie" /\
               result_products cr
               = map (fun d => sku_title (product_of_doc d))
                   (find_para (fst (split_ids request)))) /\
   (forall cr, retail_result request_response = Some cr ->
               category cr = "retail" /\ category_label cr = "Électronique" /\
               result_products cr
               = map (fun d => sku_title (product_of_doc d))
                   (find_retail (snd (split_ids request))))).
Proof.
  split; [exact request_reply|].
  apply (category_absent_iff_no_document request request_response).
  exact request_reply.
Defined.


Lemma bad_document_fails_the_request_witness :
  ((fst (split_ids (D := broken_shelf) request) <> [] /\
    In {| doc_id := phone_id; doc_title := Some "Phone";
          doc_shops := Some PNone |}
       (find_para (Database := broken_shelf)
          (fst (split_ids (D := broken_shelf) request)))) \/
   (snd (split_ids (D := broken_shelf) request) <> [] /\
    In {| doc_id := phone_id; doc_title := Some "Phone";
          doc_shops := Some PNone |}
       (find_retail (Database := broken_shelf)
          (snd (split_ids (D := broken_shelf) request))))) /\
  Some PNone = Some PNone /\ is_dict PNone = false /\
  exists e, post_best_shop (D := broken_shelf) request = Failed e.
Proof.
  assert (Hin :
    (fst (split_ids (D := broken_shelf) request) <> [] /\
     In {| doc_id := phone_id; doc_title := Some "Phone";
           doc_shops := Some PNone |}
        (find_para (Database := broken_shelf)
           (fst (split_ids (D := broken_shelf) request)))) \/
    (snd (split_ids (D := broken_shelf) request) <> [] /\
     In {| doc_id := phone_id; doc_title := Some "Phone";
           doc_shops := Some PNone |}
        (find_retail (Database := broken_shelf)
           (snd (split_ids (D := broken_shelf) request))))).
  { right. split; [discriminate|]. left. reflexivity. }
  split; [exact Hin|]. split; [reflexivity|]. split; [reflexivity|].
  apply (bad_document_fails_the_request (D := broken_shelf) request
           {| doc_id := phone_id; doc_title := Some "Phone";
              doc_shops := Some PNone |} PNone Hin); reflexivity.
Defined.

End MoreExamples.
